(** * script_exporter: the probe pipeline, embedded and verified

    The Go program under [cmd/script_exporter] answers [/probe] requests:
    it authenticates the request ([auth]), counts it ([instrumentScript]),
    runs the registered script ([runScript]) and rewrites the script's
    output into exposition text ([metricsHandler]).

    Go strings are byte sequences; they are modelled by [string], an
    [ascii] standing for one byte.  The Go packages the program calls are
    modelled in modules that carry their Go names ([strings], [bufio],
    [regexp], [fmt], [base64], [hmac], [jwt], [http], [prometheus]); the
    program itself follows in [Module main]. *)

From Stdlib Require Import ZArith String Ascii List Lia Bool Arith.
From Stdlib Require Import Floats.SpecFloat.
From stdpp Require Import gmap strings.
Import ListNotations.
Open Scope string_scope.

(* ===================================================================== *)
(** * Bytes and byte strings *)
(* ===================================================================== *)

Module bytes.

Definition code (c : ascii) : nat := nat_of_ascii c.

Definition between (lo hi : nat) (c : ascii) : bool :=
  Nat.leb lo (code c) && Nat.leb (code c) hi.

Definition is_digit (c : ascii) : bool := between 48 57 c.
Definition is_upper (c : ascii) : bool := between 65 90 c.
Definition is_lower (c : ascii) : bool := between 97 122 c.
Definition is_alnum (c : ascii) : bool := is_digit c || is_upper c || is_lower c.
(** Perl's [\w]: [0-9A-Za-z_]. *)
Definition is_word (c : ascii) : bool := is_alnum c || Nat.eqb (code c) 95.
(** Perl's [\s]: tab, newline, form feed, carriage return, space. *)
Definition is_space (c : ascii) : bool :=
  Nat.eqb (code c) 9 || Nat.eqb (code c) 10 || Nat.eqb (code c) 12
  || Nat.eqb (code c) 13 || Nat.eqb (code c) 32.
Definition is_ascii (c : ascii) : bool := Nat.ltb (code c) 128.

Definition LF : ascii := ascii_of_nat 10.
Definition CR : ascii := ascii_of_nat 13.
Definition quote : ascii := ascii_of_nat 34.

Fixpoint all (P : ascii -> bool) (s : string) : bool :=
  match s with
  | EmptyString => true
  | String c s' => P c && all P s'
  end.

(** [s[n:]], and [s] past its end when [n] is too large. *)
Fixpoint skip (n : nat) (s : string) : string :=
  match n, s with
  | 0, _ => s
  | S n', String _ s' => skip n' s'
  | S _, EmptyString => EmptyString
  end.

(** [s[:n]]. *)
Fixpoint take (n : nat) (s : string) : string :=
  match n, s with
  | S n', String c s' => String c (take n' s')
  | _, _ => EmptyString
  end.

Fixpoint rev_onto (s acc : string) : string :=
  match s with
  | EmptyString => acc
  | String c s' => rev_onto s' (String c acc)
  end.

Definition rev (s : string) : string := rev_onto s EmptyString.

Fixpoint map (f : ascii -> ascii) (s : string) : string :=
  match s with
  | EmptyString => EmptyString
  | String c s' => String (f c) (map f s')
  end.

Fixpoint join (l : list string) : string :=
  match l with
  | [] => EmptyString
  | s :: l' => s ++ join l'
  end.

End bytes.

(* ===================================================================== *)
(** * Package strings *)
(* ===================================================================== *)

Module strings.

Fixpoint TrimLeft (s : string) (cut : ascii) : string :=
  match s with
  | String c s' => if Ascii.eqb c cut then TrimLeft s' cut else s
  | EmptyString => EmptyString
  end.

Definition TrimRight (s : string) (cut : ascii) : string :=
  bytes.rev (TrimLeft (bytes.rev s) cut).

(** [strings.Trim(s, cutset)] for a cutset of one byte. *)
Definition Trim (s : string) (cut : ascii) : string :=
  TrimRight (TrimLeft s cut) cut.

(** [strings.Split(s, sep)] for a separator of one byte: the pieces
    between the separators, always at least one. *)
Fixpoint Split (s : string) (sep : ascii) : list string :=
  match s with
  | EmptyString => [EmptyString]
  | String c s' =>
      if Ascii.eqb c sep then EmptyString :: Split s' sep
      else match Split s' sep with
           | piece :: rest => String c piece :: rest
           | [] => [String c EmptyString]
           end
  end.

(** [strings.Replace(s, old, new, -1)] for [old] and [new] of one byte. *)
Definition Replace (s : string) (old new : ascii) : string :=
  bytes.map (fun c => if Ascii.eqb c old then new else c) s.

Definition lower (c : ascii) : ascii :=
  if bytes.is_upper c then ascii_of_nat (bytes.code c + 32) else c.

(** [strings.ToLower] on the ASCII letters.  Go also lowers letters
    outside ASCII; none of them lowers to a letter of ["bearer"], the only
    string the result is compared with here. *)
Definition ToLower (s : string) : string := bytes.map lower s.

End strings.

(* ===================================================================== *)
(** * Package bufio: the line scanner *)
(* ===================================================================== *)

Module bufio.

(** [MaxScanTokenSize]: the scanner's buffer holds at most this many bytes. *)
Definition MaxScanTokenSize : N := 65536%N.

(** The bytes up to the first newline, and what follows it ([None] when
    the input has no newline). *)
Fixpoint cut_line (s : string) : string * option string :=
  match s with
  | EmptyString => (EmptyString, None)
  | String c s' =>
      if Ascii.eqb c bytes.LF then (EmptyString, Some s')
      else let '(l, r) := cut_line s' in (String c l, r)
  end.

(** [dropCR]: a line loses one trailing carriage return. *)
Definition dropCR (l : string) : string :=
  match bytes.rev l with
  | String c r => if Ascii.eqb c bytes.CR then bytes.rev r else l
  | EmptyString => l
  end.

(** The tokens [Scanner.Scan]/[Scanner.Text] yield with [ScanLines] over
    a [strings.Reader]: one per line; a last line with no newline counts
    when it is not empty; a line that does not fit the buffer ends the
    scan ([ErrTooLong]), and the lines after it are never seen. *)
Fixpoint scan (fuel : nat) (s : string) : list string :=
  match fuel with
  | 0 => []
  | S fuel' =>
      match s with
      | EmptyString => []
      | _ =>
          let '(l, r) := cut_line s in
          if (MaxScanTokenSize <=? N.of_nat (String.length l))%N then []
          else match r with
               | Some s' => dropCR l :: scan fuel' s'
               | None => [dropCR l]
               end
      end
  end.

Definition Lines (s : string) : list string := scan (String.length s) s.

End bufio.

(* ===================================================================== *)
(** * Package regexp *)
(* ===================================================================== *)

(** Go's [regexp] finds the leftmost match and, among the matches that
    start there, the one a backtracking search finds first.  The model is
    that search: [ends r pos s] lists, in the order backtracking tries
    them, the places where a match of [r] started at [pos] can end.

    The text is matched byte by byte.  The patterns are those of
    [regexp/syntax] in Perl mode, for ASCII patterns without counted
    repetition, flags and groups [(?...)], Unicode and POSIX classes,
    octal and hexadecimal escapes, word boundaries and [\Q..\E]; a
    repetition of something that can match the empty string, whose
    treatment changed between Go releases, is left out as well.  For a
    pattern outside this fragment [Compile] answers [Beyond], and nothing
    is claimed. *)
Module regexp.

Inductive perl : Set := PDigit | PSpace | PWord.

Inductive item : Set :=
| IRange (lo hi : ascii)
| IPerl (neg : bool) (p : perl).

Inductive regex : Set :=
| Eps
| Lit (c : ascii)
| Dot
| Class (neg : bool) (items : list item)
| Bol
| Eol
| Cat (r1 r2 : regex)
| Alt (r1 r2 : regex)
| Star (greedy : bool) (r : regex)
| Plus (greedy : bool) (r : regex)
| Quest (greedy : bool) (r : regex).

Definition perl_match (p : perl) (c : ascii) : bool :=
  match p with
  | PDigit => bytes.is_digit c
  | PSpace => bytes.is_space c
  | PWord => bytes.is_word c
  end.

Definition item_match (c : ascii) (i : item) : bool :=
  match i with
  | IRange lo hi => bytes.between (bytes.code lo) (bytes.code hi) c
  | IPerl neg p => xorb neg (perl_match p c)
  end.

Definition class_match (neg : bool) (items : list item) (c : ascii) : bool :=
  xorb neg (existsb (item_match c) items).

(** [.] matches every byte but the newline. *)
Definition dot_match (c : ascii) : bool := negb (Ascii.eqb c bytes.LF).

(** A place in the text: the offset and what is left from there. *)
Definition place : Set := nat * string.

Definition one (P : ascii -> bool) (pos : nat) (s : string) : list place :=
  match s with
  | String c s' => if P c then [(S pos, s')] else []
  | EmptyString => []
  end.

(** The repetitions of [step], each of which must move forward. *)
Fixpoint iter (step : nat -> string -> list place) (greedy : bool)
    (fuel : nat) (pos : nat) (s : string) : list place :=
  match fuel with
  | 0 => [(pos, s)]
  | S n =>
      let more :=
        flat_map (fun q : place =>
                    if Nat.ltb pos (fst q) then iter step greedy n (fst q) (snd q)
                    else [])
                 (step pos s) in
      if greedy then more ++ [(pos, s)] else (pos, s) :: more
  end.

Fixpoint ends (r : regex) (pos : nat) (s : string) : list place :=
  match r with
  | Eps => [(pos, s)]
  | Lit c => one (Ascii.eqb c) pos s
  | Dot => one dot_match pos s
  | Class neg items => one (class_match neg items) pos s
  | Bol => if Nat.eqb pos 0 then [(pos, s)] else []
  | Eol => match s with EmptyString => [(pos, s)] | String _ _ => [] end
  | Cat a b => flat_map (fun q : place => ends b (fst q) (snd q)) (ends a pos s)
  | Alt a b => ends a pos s ++ ends b pos s
  | Star g a => iter (ends a) g (String.length s) pos s
  | Plus g a =>
      flat_map (fun q : place => iter (ends a) g (String.length (snd q)) (fst q) (snd q))
               (ends a pos s)
  | Quest g a => if g then ends a pos s ++ [(pos, s)] else (pos, s) :: ends a pos s
  end.

(** The leftmost match at or after [pos], [s] being the text from [pos]
    on: where it starts and where it ends. *)
Fixpoint search (r : regex) (pos : nat) (s : string) : option (nat * nat) :=
  match ends r pos s with
  | q :: _ => Some (pos, fst q)
  | [] =>
      match s with
      | String _ s' => search r (S pos) s'
      | EmptyString => None
      end
  end.

(** [Regexp.allMatches] with no bound on the number of matches: the
    successive matches, an empty match right after a match being passed
    over. *)
Fixpoint allMatches (fuel : nat) (r : regex) (text : string) (pos : nat)
    (prevMatchEnd : option nat) : list (nat * nat) :=
  match fuel with
  | 0 => []
  | S fuel' =>
      if Nat.ltb (String.length text) pos then []
      else
        match search r pos (bytes.skip pos text) with
        | None => []
        | Some (b, e) =>
            if Nat.eqb e pos then
              let pos' := if Nat.ltb pos (String.length text) then S pos
                          else S (String.length text) in
              let rest := allMatches fuel' r text pos' (Some e) in
              match prevMatchEnd with
              | Some p => if Nat.eqb b p then rest else (b, e) :: rest
              | None => (b, e) :: rest
              end
            else (b, e) :: allMatches fuel' r text e (Some e)
        end
  end.

Definition FindAllString (r : regex) (s : string) : list string :=
  List.map (fun m : nat * nat => substring (fst m) (snd m - fst m) s)
           (allMatches (String.length s + 2) r s 0 None).

Definition MatchString (r : regex) (s : string) : bool :=
  match search r 0 s with Some _ => true | None => false end.

(** ** The parser *)

(** What [Compile] answers: a program, the [nil] it returns beside an
    error, or [Beyond] for a pattern outside the modelled fragment. *)
Inductive compiled : Set :=
| Regexp (r : regex)
| Nil
| Beyond.

Inductive escape : Set :=
| EChar (c : ascii)
| EErr
| EBeyond.

(** [parseEscape], given the byte after the backslash. *)
Definition parseEscape (c : ascii) : escape :=
  if negb (bytes.is_ascii c) then EBeyond
  else if negb (bytes.is_alnum c) then EChar c
  else if bytes.is_digit c || Ascii.eqb c "x" then EBeyond
  else if Ascii.eqb c "a" then EChar (ascii_of_nat 7)
  else if Ascii.eqb c "f" then EChar (ascii_of_nat 12)
  else if Ascii.eqb c "n" then EChar (ascii_of_nat 10)
  else if Ascii.eqb c "r" then EChar (ascii_of_nat 13)
  else if Ascii.eqb c "t" then EChar (ascii_of_nat 9)
  else if Ascii.eqb c "v" then EChar (ascii_of_nat 11)
  else EErr.

(** The Perl classes [\d \D \s \S \w \W]. *)
Definition perl_of (c : ascii) : option (bool * perl) :=
  if Ascii.eqb c "d" then Some (false, PDigit)
  else if Ascii.eqb c "D" then Some (true, PDigit)
  else if Ascii.eqb c "s" then Some (false, PSpace)
  else if Ascii.eqb c "S" then Some (true, PSpace)
  else if Ascii.eqb c "w" then Some (false, PWord)
  else if Ascii.eqb c "W" then Some (true, PWord)
  else None.

Inductive class_result : Set :=
| CDone (items : list item) (rest : string)
| CErr
| CBeyond.

(** The upper end of a range [lo-hi], read by [parseClassChar]. *)
Definition range_end (t : string) : option (escape * string) :=
  match t with
  | String d (String h t') =>
      if Ascii.eqb d "-" && negb (Ascii.eqb h "]") then
        if Ascii.eqb h "\" then
          match t' with
          | String e t'' => Some (parseEscape e, t'')
          | EmptyString => Some (EErr, EmptyString)
          end
        else Some (EChar h, t')
      else None
  | _ => None
  end.

(** The loop of [parseClass], after the opening bracket and the caret. *)
Fixpoint class_loop (fuel : nat) (t : string) (first : bool) (acc : list item)
    : class_result :=
  match fuel with
  | 0 => CBeyond
  | S fuel' =>
      let range (lo : ascii) (t1 : string) :=
        match range_end t1 with
        | Some (EChar hi, t2) =>
            if Nat.ltb (bytes.code hi) (bytes.code lo) then CErr
            else class_loop fuel' t2 false (IRange lo hi :: acc)
        | Some (EErr, _) => CErr
        | Some (EBeyond, _) => CBeyond
        | None => class_loop fuel' t1 false (IRange lo lo :: acc)
        end in
      match t with
      | EmptyString => CErr
      | String c t1 =>
          if Ascii.eqb c "]" && negb first then CDone (List.rev acc) t1
          else if Ascii.eqb c "[" && String.prefix ":" t1
                  && Nat.ltb 2 (String.length t) then CBeyond
          else if Ascii.eqb c "\" then
            match t1 with
            | EmptyString => CErr
            | String e t2 =>
                if Ascii.eqb e "p" || Ascii.eqb e "P" then CBeyond
                else match perl_of e with
                     | Some (neg, p) => class_loop fuel' t2 false (IPerl neg p :: acc)
                     | None =>
                         match parseEscape e with
                         | EChar lo => range lo t2
                         | EErr => CErr
                         | EBeyond => CBeyond
                         end
                     end
            end
          else range c t1
      end
  end.

(** [parseClass], given what follows the opening bracket. *)
Definition parseClass (t : string) : bool * class_result :=
  match t with
  | String "^" t' => (true, class_loop (String.length t') t' true [])
  | _ => (false, class_loop (String.length t) t true [])
  end.

(** [parseInt]: what follows a decimal number with no leading zero. *)
Fixpoint digits_end (t : string) : string :=
  match t with
  | String c t' => if bytes.is_digit c then digits_end t' else t
  | EmptyString => EmptyString
  end.

Definition parseInt (t : string) : option string :=
  match t with
  | String c t' =>
      if negb (bytes.is_digit c) then None
      else match t' with
           | String d _ =>
               if Ascii.eqb c "0" && bytes.is_digit d then None
               else Some (digits_end t)
           | EmptyString => Some EmptyString
           end
  | EmptyString => None
  end.

(** [parseRepeat] succeeds: the brace opens [{n}], [{n,}] or [{n,m}]. *)
Definition is_repeat (t : string) : bool :=
  match parseInt t with
  | None => false
  | Some (String c r) =>
      if Ascii.eqb c "}" then true
      else if Ascii.eqb c "," then
        match r with
        | String d _ =>
            if Ascii.eqb d "}" then true
            else match parseInt r with
                 | Some r' => String.prefix "}" r'
                 | None => false
                 end
        | EmptyString => false
        end
      else false
  | Some EmptyString => false
  end.

Fixpoint nullable (r : regex) : bool :=
  match r with
  | Eps | Bol | Eol => true
  | Lit _ | Dot | Class _ _ => false
  | Cat a b => nullable a && nullable b
  | Alt a b => nullable a || nullable b
  | Star _ _ | Quest _ _ => true
  | Plus _ a => nullable a
  end.

(** The parser's stack: for each open group the alternatives finished so
    far and the pieces of the one being read, latest first. *)
Record frame : Set := Frame { alts : list regex; cur : list regex }.

Definition push (r : regex) (f : frame) : frame :=
  Frame (alts f) (r :: cur f).

Definition cat_list (l : list regex) : regex := fold_right Cat Eps l.

Definition concat (f : frame) : regex := cat_list (List.rev (cur f)).

(** [concat] then [alternate]: the regex of a whole group. *)
Definition close (f : frame) : regex :=
  fold_left (fun acc a => Alt a acc) (alts f) (concat f).

Inductive kind : Set :=
| KOpen | KClose | KBar | KBol | KEol | KDot | KClass
| KStar | KPlus | KQuest | KBrace | KEsc | KLit.

Definition kind_of (c : ascii) : kind :=
  if Ascii.eqb c "(" then KOpen
  else if Ascii.eqb c ")" then KClose
  else if Ascii.eqb c "|" then KBar
  else if Ascii.eqb c "^" then KBol
  else if Ascii.eqb c "$" then KEol
  else if Ascii.eqb c "." then KDot
  else if Ascii.eqb c "[" then KClass
  else if Ascii.eqb c "*" then KStar
  else if Ascii.eqb c "+" then KPlus
  else if Ascii.eqb c "?" then KQuest
  else if Ascii.eqb c "{" then KBrace
  else if Ascii.eqb c "\" then KEsc
  else KLit.

(** Groups nested deeper than this are left out: Go refuses a pattern
    whose syntax tree is too high. *)
Definition max_depth : nat := 100.

Definition repetition (k : kind) (greedy : bool) (r : regex) : regex :=
  match k with
  | KStar => Star greedy r
  | KPlus => Plus greedy r
  | _ => Quest greedy r
  end.

(** The loop of [syntax.Parse]: [f] is the group being read, [stack] the
    groups around it, [lastRepeat] tells that the piece just read is a
    repetition. *)
Fixpoint parse (fuel : nat) (t : string) (f : frame) (stack : list frame)
    (lastRepeat : bool) : compiled :=
  match t with
  | EmptyString =>
      match stack with
      | [] => Regexp (close f)
      | _ :: _ => Nil
      end
  | String c t' =>
      match fuel with
      | 0 => Beyond
      | S fuel' =>
          match kind_of c with
          | KLit => parse fuel' t' (push (Lit c) f) stack false
          | KOpen =>
              if String.prefix "?" t' then Beyond
              else if Nat.leb max_depth (List.length stack) then Beyond
              else parse fuel' t' (Frame [] []) (f :: stack) false
          | KClose =>
              match stack with
              | [] => Nil
              | outer :: stack' => parse fuel' t' (push (close f) outer) stack' false
              end
          | KBar => parse fuel' t' (Frame (concat f :: alts f) []) stack false
          | KBol => parse fuel' t' (push Bol f) stack false
          | KEol => parse fuel' t' (push Eol f) stack false
          | KDot => parse fuel' t' (push Dot f) stack false
          | KClass =>
              match parseClass t' with
              | (neg, CDone items rest) =>
                  parse fuel' rest (push (Class neg items) f) stack false
              | (_, CErr) => Nil
              | (_, CBeyond) => Beyond
              end
          | KBrace =>
              if is_repeat t' then Beyond
              else parse fuel' t' (push (Lit c) f) stack false
          | KEsc =>
              match t' with
              | EmptyString => Nil
              | String e t'' =>
                  match perl_of e with
                  | Some (neg, p) =>
                      parse fuel' t'' (push (Class false [IPerl neg p]) f) stack false
                  | None =>
                      if Ascii.eqb e "A" then parse fuel' t'' (push Bol f) stack false
                      else if Ascii.eqb e "z" then parse fuel' t'' (push Eol f) stack false
                      else if Ascii.eqb e "b" || Ascii.eqb e "B" || Ascii.eqb e "C"
                              || Ascii.eqb e "Q" || Ascii.eqb e "p" || Ascii.eqb e "P"
                      then Beyond
                      else match parseEscape e with
                           | EChar x => parse fuel' t'' (push (Lit x) f) stack false
                           | EErr => Nil
                           | EBeyond => Beyond
                           end
                  end
              end
          | (KStar | KPlus | KQuest) as k =>
              if lastRepeat then Nil
              else match cur f with
                   | [] => Nil
                   | r :: pieces =>
                       if nullable r then Beyond
                       else
                         let lazy := String.prefix "?" t' in
                         parse fuel' (if lazy then bytes.skip 1 t' else t')
                               (Frame (alts f) (repetition k (negb lazy) r :: pieces))
                               stack true
                   end
          end
      end
  end.

(** [regexp.Compile]. *)
Definition Compile (expr : string) : compiled :=
  if bytes.all bytes.is_ascii expr
  then parse (String.length expr) expr (Frame [] []) [] false
  else Beyond.

End regexp.

(* ===================================================================== *)
(** * Package fmt: the verb %f *)
(* ===================================================================== *)

(** A [float64] is a [spec_float]: a signed zero, an infinity, NaN, or
    [(-1)^s * m * 2^e].  [%f] prints the exact value rounded to six
    decimals, ties to even ([strconv.FormatFloat(x, 'f', 6, 64)]). *)
Module fmt.

Definition float64 : Set := spec_float.

Definition digit (n : Z) : ascii := ascii_of_nat (48 + Z.to_nat n).

Fixpoint digits (fuel : nat) (n : Z) (acc : string) : string :=
  match fuel with
  | 0 => acc
  | S fuel' =>
      let acc' := String (digit (n mod 10)) acc in
      if (n <? 10)%Z then acc' else digits fuel' (n / 10) acc'
  end.

(** The decimal digits of [n >= 0]. *)
Definition itoa (n : Z) : string :=
  digits (S (Z.to_nat (Z.log2 n))) n EmptyString.

Definition round_half_even (num den : Z) : Z :=
  let q := (num / den)%Z in
  let r := (num mod den)%Z in
  if (2 * r <? den)%Z then q
  else if (den <? 2 * r)%Z then (q + 1)%Z
  else if Z.even q then q else (q + 1)%Z.

(** [m * 2^e] in millionths, rounded. *)
Definition millionths (m : positive) (e : Z) : Z :=
  if (0 <=? e)%Z then (Z.pos m * 2 ^ e * 1000000)%Z
  else round_half_even (Z.pos m * 1000000) (2 ^ (- e)).

Definition six (n : Z) : string :=
  List.fold_right (fun k acc => String (digit ((n / 10 ^ k) mod 10)) acc)
                  EmptyString [5; 4; 3; 2; 1; 0]%Z.

Definition fixed6 (n : Z) : string :=
  itoa (n / 1000000) ++ "." ++ six (n mod 1000000).

Definition sign (s : bool) : string := if s then "-" else "".

(** [fmt.Sprintf("%f", x)]. *)
Definition f (x : float64) : string :=
  match x with
  | S754_zero s => sign s ++ "0.000000"
  | S754_infinity s => if s then "-Inf" else "+Inf"
  | S754_nan => "NaN"
  | S754_finite s m e => sign s ++ fixed6 (millionths m e)
  end.

(** A sample value as the exposition format writes a float with six
    decimals: an optional minus sign, digits, a point, six digits; or
    one of [NaN], [+Inf], [-Inf]. *)
Fixpoint decimal6_from (s : string) (seen_digit : bool) : bool :=
  match s with
  | EmptyString => false
  | String c s' =>
      if bytes.is_digit c then decimal6_from s' true
      else if Ascii.eqb c "." then
        seen_digit && Nat.eqb (String.length s') 6 && bytes.all bytes.is_digit s'
      else false
  end.

Definition decimal6 (s : string) : bool := decimal6_from s false.

Definition number (s : string) : bool :=
  String.eqb s "NaN" || String.eqb s "+Inf" || String.eqb s "-Inf"
  || decimal6 s
  || (String.eqb (bytes.take 1 s) "-" && decimal6 (bytes.skip 1 s)).

End fmt.

(* ===================================================================== *)
(** * Package encoding/base64, URL alphabet *)
(* ===================================================================== *)

Module base64.

(** A group of six bits, most significant first. *)
Definition sextet : Set := bool * bool * bool * bool * bool * bool.

Definition index (s : sextet) : nat :=
  let '(b5, b4, b3, b2, b1, b0) := s in
  let v (b : bool) (k : nat) := if b then k else 0 in
  v b5 32 + v b4 16 + v b3 8 + v b2 4 + v b1 2 + v b0 1.

Definition of_index (n : nat) : sextet :=
  (Nat.testbit n 5, Nat.testbit n 4, Nat.testbit n 3,
   Nat.testbit n 2, Nat.testbit n 1, Nat.testbit n 0).

(** The alphabet [A-Za-z0-9-_]. *)
Definition encode_char (s : sextet) : ascii :=
  let i := index s in
  if Nat.ltb i 26 then ascii_of_nat (65 + i)
  else if Nat.ltb i 52 then ascii_of_nat (97 + (i - 26))
  else if Nat.ltb i 62 then ascii_of_nat (48 + (i - 52))
  else if Nat.eqb i 62 then "-"%char else "_"%char.

Definition decode_char (c : ascii) : option sextet :=
  let n := bytes.code c in
  if bytes.is_upper c then Some (of_index (n - 65))
  else if bytes.is_lower c then Some (of_index (n - 97 + 26))
  else if bytes.is_digit c then Some (of_index (n - 48 + 52))
  else if Ascii.eqb c "-" then Some (of_index 62)
  else if Ascii.eqb c "_" then Some (of_index 63)
  else None.

Definition zero6 : sextet := (false, false, false, false, false, false).

(** Three bytes are four sextets. *)
Definition split3 (a b c : ascii) : sextet * sextet * sextet * sextet :=
  let 'Ascii a0 a1 a2 a3 a4 a5 a6 a7 := a in
  let 'Ascii b0 b1 b2 b3 b4 b5 b6 b7 := b in
  let 'Ascii c0 c1 c2 c3 c4 c5 c6 c7 := c in
  ((a7, a6, a5, a4, a3, a2), (a1, a0, b7, b6, b5, b4),
   (b3, b2, b1, b0, c7, c6), (c5, c4, c3, c2, c1, c0)).

Definition join4 (s0 s1 s2 s3 : sextet) : ascii * ascii * ascii :=
  let '(a7, a6, a5, a4, a3, a2) := s0 in
  let '(a1, a0, b7, b6, b5, b4) := s1 in
  let '(b3, b2, b1, b0, c7, c6) := s2 in
  let '(c5, c4, c3, c2, c1, c0) := s3 in
  (Ascii a0 a1 a2 a3 a4 a5 a6 a7, Ascii b0 b1 b2 b3 b4 b5 b6 b7,
   Ascii c0 c1 c2 c3 c4 c5 c6 c7).

(** [RawURLEncoding.EncodeToString]: no padding. *)
Fixpoint Encode (src : string) : string :=
  match src with
  | EmptyString => EmptyString
  | String a EmptyString =>
      let '(s0, s1, _, _) := split3 a Ascii.zero Ascii.zero in
      String (encode_char s0) (String (encode_char s1) EmptyString)
  | String a (String b EmptyString) =>
      let '(s0, s1, s2, _) := split3 a b Ascii.zero in
      String (encode_char s0) (String (encode_char s1)
        (String (encode_char s2) EmptyString))
  | String a (String b (String c rest)) =>
      let '(s0, s1, s2, s3) := split3 a b c in
      String (encode_char s0) (String (encode_char s1)
        (String (encode_char s2) (String (encode_char s3) (Encode rest))))
  end.

Definition is_newline (c : ascii) : bool :=
  Ascii.eqb c bytes.LF || Ascii.eqb c bytes.CR.

Definition skip_newlines (s : string) : string :=
  (fix go (s : string) : string :=
     match s with
     | String c s' => if is_newline c then go s' else s
     | EmptyString => EmptyString
     end) s.

(** The end of the input at a padding character, [dbuf] holding the
    sextets of the last quantum read so far. *)
Definition padding (dbuf : list sextet) (rest : string) : option string :=
  match dbuf with
  | [s0; s1] =>
      match skip_newlines rest with
      | String c rest' =>
          if Ascii.eqb c "=" then
            match skip_newlines rest' with
            | EmptyString =>
                let '(x, _, _) := join4 s0 s1 zero6 zero6 in
                Some (String x EmptyString)
            | String _ _ => None
            end
          else None
      | EmptyString => None
      end
  | [s0; s1; s2] =>
      match skip_newlines rest with
      | EmptyString =>
          let '(x, y, _) := join4 s0 s1 s2 zero6 in
          Some (String x (String y EmptyString))
      | String _ _ => None
      end
  | _ => None
  end.

(** [URLEncoding.DecodeString]: padded, newlines passed over, the bits
    left over in the last sextet not checked. *)
Fixpoint Decode (src : string) (dbuf : list sextet) : option string :=
  match src with
  | EmptyString =>
      match dbuf with
      | [] => Some EmptyString
      | _ :: _ => None
      end
  | String c rest =>
      match decode_char c with
      | Some v =>
          match dbuf with
          | [s0; s1; s2] =>
              match Decode rest [] with
              | Some out =>
                  let '(x, y, z) := join4 s0 s1 s2 v in
                  Some (String x (String y (String z out)))
              | None => None
              end
          | _ => Decode rest (dbuf ++ [v])
          end
      | None =>
          if is_newline c then Decode rest dbuf
          else if Ascii.eqb c "=" then padding dbuf rest
          else None
      end
  end.

Fixpoint equals (n : nat) : string :=
  match n with
  | 0 => EmptyString
  | S n' => String "=" (equals n')
  end.

End base64.

(* ===================================================================== *)
(** * Package crypto/sha256, crypto/sha512 *)
(* ===================================================================== *)

(** The SHA-2 functions of FIPS 180-4 over [w]-bit words held in [Z].
    The round constants and initial values are computed as the standard
    defines them: the fractional parts of the cube and square roots of
    the first primes. *)
Module sha2.

Definition is_prime (n : nat) : bool :=
  Nat.ltb 1 n && forallb (fun d => negb (Nat.eqb (Nat.modulo n d) 0)) (seq 2 (n - 2)).

Definition primes : list Z :=
  Eval vm_compute in List.map Z.of_nat (List.filter is_prime (seq 2 408)).

(** The integer [k]-th root of [n], by bits from the top. *)
Definition iroot (k : Z) (bits : nat) (n : Z) : Z :=
  List.fold_left
    (fun r i => let c := (r + 2 ^ Z.of_nat i)%Z in
                if (c ^ k <=? n)%Z then c else r)
    (List.rev (seq 0 bits)) 0%Z.

(** The first [w] bits of the fractional part of the [k]-th root of [p]. *)
Definition frac_root (k w p : Z) : Z :=
  (iroot k (Z.to_nat w + 8) (p * 2 ^ (k * w)) mod 2 ^ w)%Z.

Record params : Set := Params {
  w : Z;
  rounds : nat;
  K : list Z;
  H0 : list Z;
  big0 : Z * Z * Z;
  big1 : Z * Z * Z;
  small0 : Z * Z * Z;
  small1 : Z * Z * Z;
  size : nat  (* bytes of the digest *)
}.

Definition SHA256 : params :=
  Eval vm_compute in
  Params 32 64 (List.map (frac_root 3 32) (firstn 64 primes))
         (List.map (frac_root 2 32) (firstn 8 primes))
         (2, 13, 22)%Z (6, 11, 25)%Z (7, 18, 3)%Z (17, 19, 10)%Z 32.

Definition SHA512 : params :=
  Eval vm_compute in
  Params 64 80 (List.map (frac_root 3 64) (firstn 80 primes))
         (List.map (frac_root 2 64) (firstn 8 primes))
         (28, 34, 39)%Z (14, 18, 41)%Z (1, 8, 7)%Z (19, 61, 6)%Z 64.

Definition SHA384 : params :=
  Eval vm_compute in
  Params 64 80 (K SHA512)
         (List.map (frac_root 2 64) (firstn 8 (skipn 8 primes)))
         (28, 34, 39)%Z (14, 18, 41)%Z (1, 8, 7)%Z (19, 61, 6)%Z 48.

Section Hash.
Variable P : params.

Definition wrap (x : Z) : Z := (x mod 2 ^ w P)%Z.
Definition add (x y : Z) : Z := wrap (x + y).
Definition rotr (n x : Z) : Z :=
  Z.lor (Z.shiftr x n) (wrap (Z.shiftl x (w P - n))).

Definition Sigma (c : Z * Z * Z) (x : Z) : Z :=
  let '(i, j, k) := c in Z.lxor (Z.lxor (rotr i x) (rotr j x)) (rotr k x).
Definition sigma (c : Z * Z * Z) (x : Z) : Z :=
  let '(i, j, k) := c in Z.lxor (Z.lxor (rotr i x) (rotr j x)) (Z.shiftr x k).
Definition Ch (x y z : Z) : Z :=
  Z.lxor (Z.land x y) (Z.land (wrap (Z.lnot x)) z).
Definition Maj (x y z : Z) : Z :=
  Z.lxor (Z.lxor (Z.land x y) (Z.land x z)) (Z.land y z).

(** The message schedule, latest word first. *)
Fixpoint schedule (n : nat) (rev_w : list Z) : list Z :=
  match n with
  | 0 => rev_w
  | S n' =>
      let at_ (i : nat) := nth i rev_w 0%Z in
      schedule n'
        (add (add (sigma (small1 P) (at_ 1)) (at_ 6))
             (add (sigma (small0 P) (at_ 14)) (at_ 15)) :: rev_w)
  end.

Definition round (st : list Z) (kw : Z * Z) : list Z :=
  match st with
  | [a; b; c; d; e; f; g; h] =>
      let t1 := add (add (add h (Sigma (big1 P) e)) (add (Ch e f g) (fst kw))) (snd kw) in
      let t2 := add (Sigma (big0 P) a) (Maj a b c) in
      [add t1 t2; a; b; c; add d t1; e; f; g]
  | _ => st
  end.

Definition compress (st : list Z) (blk : list Z) : list Z :=
  let ws := List.rev (schedule (rounds P - 16) (List.rev blk)) in
  let st' := List.fold_left round (List.combine (K P) ws) st in
  List.map (fun p : Z * Z => add (fst p) (snd p)) (List.combine st st').

Definition word_bytes : nat := Z.to_nat (w P / 8).

(** [n] as [k] bytes, most significant first. *)
Fixpoint be_bytes (k : nat) (n : Z) : list Z :=
  match k with
  | 0 => []
  | S k' => be_bytes k' (n / 256) ++ [(n mod 256)%Z]
  end.

Definition be_word (l : list Z) : Z :=
  List.fold_left (fun acc b => (acc * 256 + b)%Z) l 0%Z.

Fixpoint chunks (fuel k : nat) (l : list Z) : list (list Z) :=
  match fuel with
  | 0 => []
  | S fuel' =>
      match l with
      | [] => []
      | _ => firstn k l :: chunks fuel' k (skipn k l)
      end
  end.

Definition block_bytes : nat := 16 * word_bytes.

Definition pad (msg : list Z) : list Z :=
  let len := List.length msg in
  let tail := 2 * word_bytes in
  let used := Nat.modulo (len + 1 + tail) block_bytes in
  let zeros := if Nat.eqb used 0 then 0 else block_bytes - used in
  msg ++ [128%Z] ++ List.repeat 0%Z zeros ++ be_bytes tail (8 * Z.of_nat len).

Definition digest (msg : list Z) : list Z :=
  let data := pad msg in
  let blocks := chunks (List.length data) block_bytes data in
  let st :=
    List.fold_left
      (fun st blk => compress st (List.map be_word (chunks 16 word_bytes blk)))
      blocks (H0 P) in
  firstn (size P) (List.concat (List.map (be_bytes word_bytes) st)).

End Hash.

Fixpoint to_list (s : string) : list Z :=
  match s with
  | EmptyString => []
  | String c s' => Z.of_nat (bytes.code c) :: to_list s'
  end.

Fixpoint of_list (l : list Z) : string :=
  match l with
  | [] => EmptyString
  | b :: l' => String (ascii_of_nat (Z.to_nat b)) (of_list l')
  end.

(** [h.Sum] of the bytes of [msg]. *)
Definition Sum (P : params) (msg : string) : string :=
  of_list (digest P (to_list msg)).

End sha2.

(* ===================================================================== *)
(** * Package crypto/hmac *)
(* ===================================================================== *)

Module hmac.

Definition xor_byte (v : nat) (c : ascii) : ascii :=
  ascii_of_nat (Nat.lxor v (bytes.code c)).

Fixpoint zeros (n : nat) : string :=
  match n with
  | 0 => EmptyString
  | S n' => String Ascii.zero (zeros n')
  end.

(** [hmac.New]: a key longer than a block is hashed, a shorter one is
    filled up with zero bytes. *)
Definition block_key (P : sha2.params) (key : string) : string :=
  let B := sha2.block_bytes P in
  let k := if Nat.ltb B (String.length key) then sha2.Sum P key else key in
  k ++ zeros (B - String.length k).

Definition Sum (P : sha2.params) (key msg : string) : string :=
  let k := block_key P key in
  sha2.Sum P (bytes.map (xor_byte 92) k
              ++ sha2.Sum P (bytes.map (xor_byte 54) k ++ msg)).

End hmac.

(* ===================================================================== *)
(** * Package github.com/dgrijalva/jwt-go *)
(* ===================================================================== *)

Module jwt.

(** What [encoding/json] answers is taken from the environment:
    [header_alg b] is [None] when [b] does not unmarshal into a header,
    [Some None] when the header has no string ["alg"], [Some (Some a)]
    when it has; [claims_valid b] is [None] when [b] does not decode into
    [MapClaims], and otherwise tells whether [MapClaims.Valid] accepts
    the claims when the request is served. *)
Record JSON : Type := {
  header_alg : string -> option (option string);
  claims_valid : string -> option bool
}.

Inductive SigningMethod : Set := HS256 | HS384 | HS512 | NotHMAC.

(** The methods the package registers; only the HS family is
    [*SigningMethodHMAC]. *)
Definition GetSigningMethod (alg : string) : option SigningMethod :=
  if String.eqb alg "HS256" then Some HS256
  else if String.eqb alg "HS384" then Some HS384
  else if String.eqb alg "HS512" then Some HS512
  else if existsb (String.eqb alg)
            ["none"; "RS256"; "RS384"; "RS512"; "PS256"; "PS384"; "PS512";
             "ES256"; "ES384"; "ES512"]
  then Some NotHMAC
  else None.

Definition Hash (m : SigningMethod) : sha2.params :=
  match m with
  | HS384 => sha2.SHA384
  | HS512 => sha2.SHA512
  | _ => sha2.SHA256
  end.

Definition EncodeSegment (seg : string) : string := base64.Encode seg.

Definition DecodeSegment (seg : string) : option string :=
  let l := Nat.modulo (String.length seg) 4 in
  base64.Decode (seg ++ base64.equals (if Nat.eqb l 0 then 0 else 4 - l)) [].

(** [SigningMethodHMAC.Sign]. *)
Definition Sign (m : SigningMethod) (signingString key : string) : string :=
  EncodeSegment (hmac.Sum (Hash m) key signingString).

(** [SigningMethodHMAC.Verify]: [true] for a [nil] error. *)
Definition Verify (m : SigningMethod) (signingString signature key : string) : bool :=
  match DecodeSegment signature with
  | Some sig => String.eqb sig (hmac.Sum (Hash m) key signingString)
  | None => false
  end.

Inductive ValidationError : Set :=
| Malformed
| Unverifiable
| ClaimsInvalid
| SignatureInvalid.

(** [jwt.Parse]: [None] for a valid token.  [keyFunc] answers the key,
    or [None] for an error. *)
Definition Parse (json : JSON) (tokenString : string)
    (keyFunc : SigningMethod -> option string) : option ValidationError :=
  match strings.Split tokenString "." with
  | [p0; p1; p2] =>
      match DecodeSegment p0 with
      | None => Some Malformed
      | Some headerBytes =>
          match header_alg json headerBytes with
          | None => Some Malformed
          | Some alg =>
              match DecodeSegment p1 with
              | None => Some Malformed
              | Some claimBytes =>
                  match claims_valid json claimBytes with
                  | None => Some Malformed
                  | Some claimsOK =>
                      match alg with
                      | None => Some Unverifiable
                      | Some name =>
                          match GetSigningMethod name with
                          | None => Some Unverifiable
                          | Some method =>
                              match keyFunc method with
                              | None => Some Unverifiable
                              | Some key =>
                                  if negb claimsOK then Some ClaimsInvalid
                                  else if Verify method (p0 ++ "." ++ p1) p2 key
                                       then None
                                       else Some SignatureInvalid
                              end
                          end
                      end
                  end
              end
          end
      end
  | _ => Some Malformed
  end.

Definition q : string := String bytes.quote EmptyString.

(** The header and the claims of [jwt.New(jwt.SigningMethodHS256)] as
    [json.Marshal] writes them. *)
Definition header_HS256 : string :=
  "{" ++ q ++ "alg" ++ q ++ ":" ++ q ++ "HS256" ++ q ++ ","
      ++ q ++ "typ" ++ q ++ ":" ++ q ++ "JWT" ++ q ++ "}".

Definition no_claims : string := "{}".

(** [Token.SigningString] of that token. *)
Definition SigningString : string :=
  EncodeSegment header_HS256 ++ "." ++ EncodeSegment no_claims.

(** [Token.SignedString]. *)
Definition SignedString (key : string) : string :=
  SigningString ++ "." ++ Sign HS256 SigningString key.

End jwt.

(* ===================================================================== *)
(** * Package pkg/config *)
(* ===================================================================== *)

Module config.

(** Modelled from the spec: the script registry of [pkg/config], whose
    source is not part of the files at hand.  A mapping from script name
    to command line, with exact, case-sensitive lookup. *)
Record ScriptConfig : Set := { Name : string; Script : string }.

(** Modelled from the spec: the configuration object of [pkg/config],
    with the activity flags and secrets of the two authentication
    schemes and the registry. *)
Record Config : Set := {
  BasicAuth_Active : bool;
  BasicAuth_Username : string;
  BasicAuth_Password : string;
  BearerAuth_Active : bool;
  BearerAuth_SigningKey : string;
  Scripts : list ScriptConfig
}.

(** Modelled from the spec: [GetScript], the registry lookup; the empty
    string stands for "not found". *)
Fixpoint lookup (name : string) (l : list ScriptConfig) : string :=
  match l with
  | [] => EmptyString
  | s :: l' => if String.eqb (Name s) name then Script s else lookup name l'
  end.

Definition GetScript (c : Config) (scriptName : string) : string :=
  lookup scriptName (Scripts c).

End config.

(* ===================================================================== *)
(** * Package net/http *)
(* ===================================================================== *)

Module http.

Definition StatusOK : nat := 200.
Definition StatusBadRequest : nat := 400.
Definition StatusUnauthorized : nat := 401.

(** What the program reads of a request: the query of its URL
    ([r.URL.Query()]), its headers, and what [r.BasicAuth()] answers.
    [net/http] reads the Basic credentials off the [Authorization]
    header; here they are a field of their own, so the model has every
    request of the program and some more. *)
Record Request : Type := {
  Query : gmap string (list string);
  Header : gmap string (list string);
  BasicAuth : option (string * string)
}.

(** [url.Values.Get] and [http.Header.Get]: the first value, or the
    empty string. *)
Definition Get (m : gmap string (list string)) (key : string) : string :=
  match m !! key with
  | Some (v :: _) => v
  | _ => EmptyString
  end.

(** A [ResponseWriter]: the headers set, the status once it is written,
    and the body so far. *)
Record ResponseWriter : Type := {
  Headers : gmap string string;
  Status : option nat;
  Body : string
}.

Definition fresh : ResponseWriter :=
  {| Headers := ∅; Status := None; Body := EmptyString |}.

Definition SetHeader (key value : string) (w : ResponseWriter) : ResponseWriter :=
  {| Headers := <[key := value]> (Headers w); Status := Status w; Body := Body w |}.

Definition WriteHeader (code : nat) (w : ResponseWriter) : ResponseWriter :=
  {| Headers := Headers w;
     Status := match Status w with Some c => Some c | None => Some code end;
     Body := Body w |}.

(** [w.Write]: the first write sends status 200 if none was sent. *)
Definition Write (data : string) (w : ResponseWriter) : ResponseWriter :=
  let w' := WriteHeader StatusOK w in
  {| Headers := Headers w'; Status := Status w'; Body := Body w' ++ data |}.

Definition nl : string := String bytes.LF EmptyString.

(** [http.Error]. *)
Definition Error (w : ResponseWriter) (error : string) (code : nat) : ResponseWriter :=
  Write (error ++ nl)
    (WriteHeader code
       (SetHeader "X-Content-Type-Options" "nosniff"
          (SetHeader "Content-Type" "text/plain; charset=utf-8" w))).

(** The status the client sees. *)
Definition status (w : ResponseWriter) : nat :=
  match Status w with Some c => c | None => StatusOK end.

End http.

(* ===================================================================== *)
(** * Package prometheus: the metric vectors *)
(* ===================================================================== *)

(** A vector maps the value of its one label to a child; a child that
    was never touched reads zero.  The gauges and counters hold whole
    numbers here. *)
Module prometheus.

Definition value (v : gmap string Z) (label : string) : Z :=
  default 0%Z (v !! label).

Definition Inc (label : string) (v : gmap string Z) : gmap string Z :=
  <[label := (value v label + 1)%Z]> v.

Definition Dec (label : string) (v : gmap string Z) : gmap string Z :=
  <[label := (value v label - 1)%Z]> v.

Definition Observe (label : string) (x : fmt.float64)
    (v : gmap string (list fmt.float64)) : gmap string (list fmt.float64) :=
  <[label := (default [] (v !! label) ++ [x])%list]> v.

End prometheus.

(* ===================================================================== *)
(** * Package main: cmd/script_exporter *)
(* ===================================================================== *)

Module main.

(** What surrounds one request: the configuration loaded at start
    ([exporterConfig]), the JSON decoder, what running a command gives
    ([exec.Command(name, args...).Output()]: the captured standard
    output, and whether the error is [nil]), and the two readings of the
    clock, [time.Since(scriptStartTime).Seconds()] in [metricsHandler]
    and [time.Since(now).Seconds()] in [instrumentScript]. *)
Record Env : Type := {
  exporterConfig : config.Config;
  json : jwt.JSON;
  Output : string -> list string -> string * bool;
  scriptSeconds : fmt.float64;
  requestSeconds : fmt.float64
}.

(** The per-script metrics of [setupMetrics]: [sif], [sreqs], [sdur]. *)
Record Metrics : Type := {
  requests_inflight : gmap string Z;
  requests_total : gmap string Z;
  duration_seconds : gmap string (list fmt.float64)
}.

(** What a request changes: its response, the process-wide metrics, and
    the command lines of the processes started. *)
Record World : Type := {
  writer : http.ResponseWriter;
  metrics : Metrics;
  started : list (list string)
}.

(** How a call ends: it returns, it panics, or it left the modelled
    fragment of [regexp]. *)
Inductive exit : Set := Returned | Panicked | Unmodelled.

Definition HandlerFunc : Type := http.Request -> World -> World * exit.

Definition with_writer (f : http.ResponseWriter -> http.ResponseWriter)
    (wd : World) : World :=
  {| writer := f (writer wd); metrics := metrics wd; started := started wd |}.

Definition with_metrics (f : Metrics -> Metrics) (wd : World) : World :=
  {| writer := writer wd; metrics := f (metrics wd); started := started wd |}.

Definition use (h : HandlerFunc) (middleware : list (HandlerFunc -> HandlerFunc))
    : HandlerFunc :=
  fold_left (fun h m => m h) middleware h.

Definition namespace : string := "script".
Definition scriptSuccessHelp : string :=
  "# HELP script_success Script exit status (0 = error, 1 = success).".
Definition scriptSuccessType : string := "# TYPE script_success gauge".
Definition scriptDurationSecondsHelp : string :=
  "# HELP script_duration_seconds Script execution time, in seconds.".
Definition scriptDurationSecondsType : string :=
  "# TYPE script_duration_seconds gauge".

(** [checkJWT]: [None] for a [nil] error. *)
Definition checkJWT (env : Env) (jwtToken : string) : option jwt.ValidationError :=
  jwt.Parse (json env) jwtToken
    (fun method =>
       match method with
       | jwt.NotHMAC => None
       | _ => Some (config.BearerAuth_SigningKey (exporterConfig env))
       end).

(** [createJWT]: the token, and no error. *)
Definition createJWT (env : Env) : string * option jwt.ValidationError :=
  (jwt.SignedString (config.BearerAuth_SigningKey (exporterConfig env)), None).

Definition deny (wd : World) : World * exit :=
  (with_writer (fun w => http.Error w "Not authorized" http.StatusUnauthorized) wd,
   Returned).

(** The Bearer half of [auth]. *)
Definition bearer (env : Env) (h : HandlerFunc) (r : http.Request) (wd : World)
    : World * exit :=
  if config.BearerAuth_Active (exporterConfig env) then
    let authHeader := http.Get (http.Header r) "Authorization" in
    if String.eqb authHeader "" then deny wd
    else
      match strings.Split authHeader " " with
      | [scheme; token] =>
          if negb (String.eqb (strings.ToLower scheme) "bearer") then deny wd
          else match checkJWT env token with
               | Some _ => deny wd
               | None => h r wd
               end
      | _ => deny wd
      end
  else h r wd.

Definition auth (env : Env) (h : HandlerFunc) : HandlerFunc :=
  fun r wd =>
    if config.BasicAuth_Active (exporterConfig env) then
      let wd := with_writer
                  (http.SetHeader "WWW-Authenticate"
                     ("Basic realm=" ++ jwt.q ++ "Restricted" ++ jwt.q)) wd in
      match http.BasicAuth r with
      | None => deny wd
      | Some (username, password) =>
          if negb (String.eqb username (config.BasicAuth_Username (exporterConfig env)))
             || negb (String.eqb password (config.BasicAuth_Password (exporterConfig env)))
          then deny wd
          else bearer env h r wd
      end
    else bearer env h r wd.

(** [runScript]: the output and whether the error is [nil]; [None] when
    indexing [args[0]] panics. *)
Definition runScript (env : Env) (args : list string) : option (string * bool) :=
  match args with
  | [] => None
  | name :: rest =>
      let '(output, ok) := Output env name rest in
      if ok then Some (output, true) else Some (EmptyString, false)
  end.

(** [g.With(labels).Inc()], [g.With(labels).Dec()], and the two updates
    that follow a handler that returned: [obs.With(labels).Observe] and
    [cnt.With(labels).Inc()]. *)
Definition inflight_Inc (sn : string) (m : Metrics) : Metrics :=
  {| requests_inflight := prometheus.Inc sn (requests_inflight m);
     requests_total := requests_total m;
     duration_seconds := duration_seconds m |}.

Definition inflight_Dec (sn : string) (m : Metrics) : Metrics :=
  {| requests_inflight := prometheus.Dec sn (requests_inflight m);
     requests_total := requests_total m;
     duration_seconds := duration_seconds m |}.

Definition observe_and_count (sn : string) (seconds : fmt.float64) (m : Metrics)
    : Metrics :=
  {| requests_inflight := requests_inflight m;
     requests_total := prometheus.Inc sn (requests_total m);
     duration_seconds := prometheus.Observe sn seconds (duration_seconds m) |}.

(** [instrumentScript(obs, cnt, g, next)] with the three vectors of
    [setupMetrics].  The decrement is deferred: it runs however [next]
    ends; the observation and the count are skipped when it panics. *)
Definition instrumentScript (env : Env) (next : HandlerFunc) : HandlerFunc :=
  fun r wd =>
    let sn := http.Get (http.Query r) "script" in
    if String.eqb sn "" then next r wd
    else
      let '(wd', e) := next r (with_metrics (inflight_Inc sn) wd) in
      match e with
      | Returned =>
          (with_metrics (inflight_Dec sn)
             (with_metrics (observe_and_count sn (requestSeconds env)) wd'),
           Returned)
      | _ => (with_metrics (inflight_Dec sn) wd', e)
      end.

(** The six lines every answered probe starts with. *)
Definition synthetic (success : string) (seconds : fmt.float64) : string :=
  scriptSuccessHelp ++ http.nl ++ scriptSuccessType ++ http.nl
  ++ namespace ++ "_success{} " ++ success ++ http.nl
  ++ scriptDurationSecondsHelp ++ http.nl ++ scriptDurationSecondsType ++ http.nl
  ++ namespace ++ "_duration_seconds{} " ++ fmt.f seconds ++ http.nl.

Inductive formatted : Set :=
| Emit (s : string)
| Skip
| Panics
| Beyond.

(** The body of the scanner loop of [metricsHandler] for one line: what
    it adds to [formatedOutput]. *)
Definition formatLine (regex1 regex2 : regexp.compiled) (prefix line : string)
    : formatted :=
  let metric := strings.Trim line " " in
  if String.eqb metric "" then Skip
  else if String.eqb (bytes.take 1 metric) "#" then Emit (metric ++ http.nl)
  else
    let metric := prefix ++ metric in
    match regex1 with
    | regexp.Nil => Panics
    | regexp.Beyond => Beyond
    | regexp.Regexp re1 =>
        match regexp.FindAllString re1 metric with
        | [m0] =>
            let value :=
              strings.Replace (bytes.skip (String.length m0) metric) "," "." in
            match regex2 with
            | regexp.Nil => Panics
            | regexp.Beyond => Beyond
            | regexp.Regexp re2 =>
                if regexp.MatchString re2 (m0 ++ value)
                then Emit (m0 ++ value ++ http.nl)
                else Skip
            end
        | _ => Skip
        end
    end.

(** The scanner loop: [inl] the final [formatedOutput], or how the loop
    broke off. *)
Fixpoint formatLines (regex1 regex2 : regexp.compiled) (prefix : string)
    (lines : list string) (formatedOutput : string) : string + exit :=
  match lines with
  | [] => inl formatedOutput
  | line :: lines' =>
      match formatLine regex1 regex2 prefix line with
      | Emit s => formatLines regex1 regex2 prefix lines' (formatedOutput ++ s)
      | Skip => formatLines regex1 regex2 prefix lines' formatedOutput
      | Panics => inr Panicked
      | Beyond => inr Unmodelled
      end
  end.

(** The "Format output" part of [metricsHandler]. *)
Definition formatOutput (prefix output : string) : string + exit :=
  let regex1 := regexp.Compile ("^" ++ prefix ++ "\w*{.*}\s+") in
  let regex2 := regexp.Compile ("^" ++ prefix ++ "\w*{.*}\s+[0-9|\.]*") in
  formatLines regex1 regex2 prefix (bufio.Lines output) EmptyString.

(** The command line [metricsHandler] runs: the words of the registered
    script, then the values of the parameters named by [params]. *)
Definition arguments (env : Env) (r : http.Request) : list string :=
  let params := http.Query r in
  let scriptParams := http.Get params "params" in
  let paramValues :=
    if String.eqb scriptParams "" then []
    else List.map (http.Get params) (strings.Split scriptParams ",") in
  let script := config.GetScript (exporterConfig env) (http.Get params "script") in
  (strings.Split script " " ++ paramValues)%list.

Definition metricsHandler (env : Env) : HandlerFunc :=
  fun r wd =>
    let params := http.Query r in
    let scriptName := http.Get params "script" in
    if String.eqb scriptName "" then
      (with_writer (fun w => http.Error w "Script parameter is missing"
                                        http.StatusBadRequest) wd, Returned)
    else
      let prefix := http.Get params "prefix" in
      let prefix := if String.eqb prefix "" then prefix else prefix ++ "_" in
      let wd := with_writer (http.SetHeader "Content-Type" "text/plain") wd in
      let script := config.GetScript (exporterConfig env) scriptName in
      if String.eqb script "" then
        (with_writer (fun w => http.Error w "Script not found"
                                          http.StatusBadRequest) wd, Returned)
      else
        let args := arguments env r in
        let wd := {| writer := writer wd; metrics := metrics wd;
                     started := (started wd ++ [args])%list |} in
        match runScript env args with
        | None => (wd, Panicked)
        | Some (_, false) =>
            (with_writer (http.Write (synthetic "0" (scriptSeconds env))) wd, Returned)
        | Some (output, true) =>
            if String.eqb (http.Get params "output") "ignore" then
              (with_writer (http.Write (synthetic "1" (scriptSeconds env))) wd, Returned)
            else
              match formatOutput prefix output with
              | inl formatedOutput =>
                  (with_writer
                     (http.Write (synthetic "1" (scriptSeconds env)
                                  ++ formatedOutput ++ http.nl)) wd, Returned)
              | inr e => (wd, e)
              end
        end.

(** The handler [main] registers for [/probe], inside the two generic
    [promhttp] layers: [instrumentScript(sdur, sreqs, sif,
    use(metricsHandler, auth))]. *)
Definition probe (env : Env) : HandlerFunc :=
  instrumentScript env (use (metricsHandler env) [auth env]).

Definition empty_metrics : Metrics :=
  {| requests_inflight := ∅; requests_total := ∅; duration_seconds := ∅ |}.

Definition start : World :=
  {| writer := http.fresh; metrics := empty_metrics; started := [] |}.

End main.

(* ===================================================================== *)
(** * Sample surroundings *)
(* ===================================================================== *)

(** Concrete configurations, requests and scripts on which the
    statements below are run. *)
Module sample.

(** A JSON decoder that knows the two documents of a token made by
    [createJWT]. *)
Definition json : jwt.JSON :=
  {| jwt.header_alg := fun b =>
       if String.eqb b jwt.header_HS256 then Some (Some "HS256") else None;
     jwt.claims_valid := fun b =>
       if String.eqb b jwt.no_claims then Some true else None |}.

Definition registry : list config.ScriptConfig :=
  [ {| config.Name := "ping"; config.Script := "/bin/ping.sh -c 1" |} ].

Definition cfg (basic bearer : bool) (key : string) : config.Config :=
  {| config.BasicAuth_Active := basic;
     config.BasicAuth_Username := "prometheus";
     config.BasicAuth_Password := "s3cret";
     config.BearerAuth_Active := bearer;
     config.BearerAuth_SigningKey := key;
     config.Scripts := registry |}.

Definition half_second : fmt.float64 := S754_finite false 1 (-1).

(** A world where every command prints [output] and exits with [ok]. *)
Definition env (c : config.Config) (output : string) (ok : bool) : main.Env :=
  {| main.exporterConfig := c;
     main.json := json;
     main.Output := fun _ _ => (output, ok);
     main.scriptSeconds := half_second;
     main.requestSeconds := half_second |}.

Definition query (l : list (string * string)) : gmap string (list string) :=
  list_to_map (List.map (fun kv : string * string => (fst kv, [snd kv])) l).

Definition request (q : list (string * string)) (authorization : string)
    (basic : option (string * string)) : http.Request :=
  {| http.Query := query q;
     http.Header := if String.eqb authorization "" then ∅
                    else {[ "Authorization" := [authorization] ]};
     http.BasicAuth := basic |}.

Definition open_cfg : config.Config := cfg false false "".

End sample.

(* ===================================================================== *)
(** * The vocabulary of the statements *)
(* ===================================================================== *)

(** What the statements about the authentication gate and the in-flight
    gauge are phrased with. *)
Module policy.

(** The request carries the configured Basic credentials. *)
Definition basic_ok (env : main.Env) (r : http.Request) : bool :=
  match http.BasicAuth r with
  | Some (username, password) =>
      String.eqb username (config.BasicAuth_Username (main.exporterConfig env))
      && String.eqb password (config.BasicAuth_Password (main.exporterConfig env))
  | None => false
  end.

(** The [Authorization] header is the word [bearer], in any case, one
    space, and a token that [checkJWT] accepts. *)
Definition bearer_ok (env : main.Env) (r : http.Request) : bool :=
  match strings.Split (http.Get (http.Header r) "Authorization") " " with
  | [scheme; token] =>
      String.eqb (strings.ToLower scheme) "bearer"
      && match main.checkJWT env token with None => true | Some _ => false end
  | _ => false
  end.

(** Every active scheme accepts the request. *)
Definition allowed (env : main.Env) (r : http.Request) : bool :=
  implb (config.BasicAuth_Active (main.exporterConfig env)) (basic_ok env r)
  && implb (config.BearerAuth_Active (main.exporterConfig env)) (bearer_ok env r).

(** The world once the gate has announced the Basic realm, which it does
    before it looks at the request. *)
Definition challenge (env : main.Env) (wd : main.World) : main.World :=
  if config.BasicAuth_Active (main.exporterConfig env) then
    main.with_writer
      (http.SetHeader "WWW-Authenticate"
         ("Basic realm=" ++ jwt.q ++ "Restricted" ++ jwt.q)) wd
  else wd.

(** The ways a request fails a check of the gate. *)
Inductive denied (env : main.Env) (r : http.Request) : Prop :=
| missing_credentials :
    config.BasicAuth_Active (main.exporterConfig env) = true ->
    http.BasicAuth r = None -> denied env r
| wrong_username (username password : string) :
    config.BasicAuth_Active (main.exporterConfig env) = true ->
    http.BasicAuth r = Some (username, password) ->
    username <> config.BasicAuth_Username (main.exporterConfig env) -> denied env r
| wrong_password (username password : string) :
    config.BasicAuth_Active (main.exporterConfig env) = true ->
    http.BasicAuth r = Some (username, password) ->
    password <> config.BasicAuth_Password (main.exporterConfig env) -> denied env r
| missing_header :
    config.BearerAuth_Active (main.exporterConfig env) = true ->
    http.Get (http.Header r) "Authorization" = "" -> denied env r
| malformed_header :
    config.BearerAuth_Active (main.exporterConfig env) = true ->
    List.length (strings.Split (http.Get (http.Header r) "Authorization") " ") <> 2 ->
    denied env r
| wrong_scheme (scheme token : string) :
    config.BearerAuth_Active (main.exporterConfig env) = true ->
    strings.Split (http.Get (http.Header r) "Authorization") " " = [scheme; token] ->
    strings.ToLower scheme <> "bearer" -> denied env r
| invalid_token (scheme token : string) (e : jwt.ValidationError) :
    config.BearerAuth_Active (main.exporterConfig env) = true ->
    strings.Split (http.Get (http.Header r) "Authorization") " " = [scheme; token] ->
    main.checkJWT env token = Some e -> denied env r.

(** The in-flight gauge of script [sn]. *)
Definition inflight (sn : string) (wd : main.World) : Z :=
  prometheus.value (main.requests_inflight (main.metrics wd)) sn.

(** The total-requests counter of script [sn], and the observations of
    its duration. *)
Definition total (sn : string) (wd : main.World) : Z :=
  prometheus.value (main.requests_total (main.metrics wd)) sn.

Definition observed (sn : string) (wd : main.World) : list fmt.float64 :=
  default [] (main.duration_seconds (main.metrics wd) !! sn).

End policy.


(** What the statements about the rewriting of sample lines are phrased
    with. *)
Module exposition.

(** A byte of a sample value: no white space, no closing brace. *)
Definition value_char (c : ascii) : bool :=
  negb (bytes.is_space c) && negb (Ascii.eqb c "}").

(** White space inside a line: [\s] but the newline. *)
Definition blank (c : ascii) : bool :=
  bytes.is_space c && regexp.dot_match c.

(** The pieces [syntax.Parse] makes of a run of literal bytes. *)
Fixpoint literal (p : string) : list regexp.regex :=
  match p with
  | EmptyString => []
  | String c p' => regexp.Lit c :: literal p'
  end.

Definition word : regexp.regex :=
  regexp.Class false [regexp.IPerl false regexp.PWord].

Definition space : regexp.regex :=
  regexp.Class false [regexp.IPerl false regexp.PSpace].

(** The pieces of [\w*{.*}\s+]. *)
Definition sample_head : list regexp.regex :=
  [regexp.Star true word; regexp.Lit "{"; regexp.Star true regexp.Dot;
   regexp.Lit "}"; regexp.Plus true space].

(** The pieces of [[0-9|\.]*]. *)
Definition sample_value : list regexp.regex :=
  [regexp.Star true
     (regexp.Class false
        [regexp.IRange "0" "9"; regexp.IRange "|" "|"; regexp.IRange "." "."])].

(** The programs of the two patterns of [metricsHandler] for a prefix of
    literal bytes. *)
Definition regex1 (prefix : string) : regexp.regex :=
  regexp.cat_list (regexp.Bol :: literal prefix ++ sample_head)%list.

Definition regex2 (prefix : string) : regexp.regex :=
  regexp.cat_list (regexp.Bol :: literal prefix ++ sample_head ++ sample_value)%list.

End exposition.


(** What the statements about whole outputs and headers are phrased
    with. *)
Module text.

(** How often the byte [c] occurs in [s]. *)
Fixpoint count (c : ascii) (s : string) : nat :=
  match s with
  | EmptyString => 0
  | String x s' => (if Ascii.eqb x c then 1 else 0) + count c s'
  end.

(** A line the loop of [metricsHandler] does not match against the
    patterns: blank, or a comment. *)
Definition remark (line : string) : bool :=
  let metric := strings.Trim line " " in
  String.eqb metric "" || String.eqb (bytes.take 1 metric) "#".

(** What such a line adds to the output. *)
Definition kept (line : string) : string :=
  let metric := strings.Trim line " " in
  if String.eqb metric "" then "" else metric ++ http.nl.

End text.


(* ===================================================================== *)
(** * Byte strings *)
(* ===================================================================== *)

Lemma append_cons (x : ascii) (a b : string) : String x a ++ b = String x (a ++ b).
Proof. reflexivity. Qed.

Lemma append_nil_l (b : string) : "" ++ b = b.
Proof. reflexivity. Qed.

Lemma append_assoc (a b c : string) : (a ++ b) ++ c = a ++ (b ++ c).
Proof.
  induction a as [|x a IH]; [reflexivity|]. now rewrite !append_cons, IH.
Qed.

Lemma append_nil_r (a : string) : a ++ "" = a.
Proof.
  induction a as [|x a IH]; [reflexivity|]. now rewrite append_cons, IH.
Qed.

Lemma length_append (a b : string) :
  String.length (a ++ b) = String.length a + String.length b.
Proof.
  induction a as [|x a IH]; [reflexivity|].
  rewrite append_cons. cbn [String.length]. now rewrite IH.
Qed.

Lemma all_append (P : ascii -> bool) (a b : string) :
  bytes.all P (a ++ b) = bytes.all P a && bytes.all P b.
Proof.
  induction a as [|x a IH]; [reflexivity|].
  rewrite append_cons. cbn [bytes.all]. now rewrite IH, andb_assoc.
Qed.

(** Strings three bytes at a time. *)
Lemma string_ind3 (P : string -> Prop) :
  P "" ->
  (forall a, P (String a "")) ->
  (forall a b, P (String a (String b ""))) ->
  (forall a b c s, P s -> P (String a (String b (String c s)))) ->
  forall s, P s.
Proof.
  intros H0 H1 H2 H3. fix IH 1.
  intros [|a [|b [|c s]]]; [exact H0 | apply H1 | apply H2 | apply H3, IH].
Qed.

(* ===================================================================== *)
(** * [strings.Split] *)
(* ===================================================================== *)

Lemma Split_none (sep : ascii) (s : string) :
  bytes.all (fun c => negb (Ascii.eqb c sep)) s = true ->
  strings.Split s sep = [s].
Proof.
  induction s as [|c s IH]; cbn [bytes.all strings.Split]; [reflexivity|].
  intros H. apply andb_true_iff in H as [Hc Hs].
  apply negb_true_iff in Hc. rewrite Hc, (IH Hs). reflexivity.
Qed.

Lemma Split_at (sep : ascii) (a b : string) :
  bytes.all (fun c => negb (Ascii.eqb c sep)) a = true ->
  strings.Split (a ++ String sep b) sep = a :: strings.Split b sep.
Proof.
  induction a as [|c a IH]; rewrite ?append_cons, ?append_nil_l;
    cbn [bytes.all strings.Split].
  - intros _. now rewrite Ascii.eqb_refl.
  - intros H. apply andb_true_iff in H as [Hc Hs].
    apply negb_true_iff in Hc. rewrite Hc, (IH Hs). reflexivity.
Qed.

(* ===================================================================== *)
(** * base64: decoding undoes encoding *)
(* ===================================================================== *)

Lemma decode_encode_char (s : base64.sextet) :
  base64.decode_char (base64.encode_char s) = Some s.
Proof. destruct s as [[[[[[] []] []] []] []] []]; reflexivity. Qed.

Lemma encode_char_plain (s : base64.sextet) :
  Ascii.eqb (base64.encode_char s) "." = false.
Proof. destruct s as [[[[[[] []] []] []] []] []]; reflexivity. Qed.

Lemma join4_split3 (a b c : ascii) :
  (let '(s0, s1, s2, s3) := base64.split3 a b c in base64.join4 s0 s1 s2 s3)
  = (a, b, c).
Proof. destruct a, b, c. reflexivity. Qed.

Lemma Encode_three (a b c : ascii) (rest : string) :
  base64.Encode (String a (String b (String c rest)))
  = let '(s0, s1, s2, s3) := base64.split3 a b c in
    String (base64.encode_char s0) (String (base64.encode_char s1)
      (String (base64.encode_char s2) (String (base64.encode_char s3)
         (base64.Encode rest)))).
Proof. reflexivity. Qed.

Lemma Decode_char (c : ascii) (v : base64.sextet) (rest : string)
    (dbuf : list base64.sextet) :
  base64.decode_char c = Some v ->
  base64.Decode (String c rest) dbuf
  = match dbuf with
    | [s0; s1; s2] =>
        match base64.Decode rest [] with
        | Some out =>
            let '(x, y, z) := base64.join4 s0 s1 s2 v in
            Some (String x (String y (String z out)))
        | None => None
        end
    | _ => base64.Decode rest (dbuf ++ [v])
    end.
Proof. intros H. cbn [base64.Decode]. rewrite H. reflexivity. Qed.

Lemma Decode_one_left (s0 s1 : base64.sextet) :
  base64.Decode "==" [s0; s1]
  = let '(x, _, _) := base64.join4 s0 s1 base64.zero6 base64.zero6 in
    Some (String x "").
Proof. reflexivity. Qed.

Lemma Decode_two_left (s0 s1 s2 : base64.sextet) :
  base64.Decode "=" [s0; s1; s2]
  = let '(x, y, _) := base64.join4 s0 s1 s2 base64.zero6 in
    Some (String x (String y "")).
Proof. reflexivity. Qed.

(** The alphabet has no point: a segment never holds the separator of a
    token. *)
Lemma Encode_plain (x : string) :
  bytes.all (fun c => negb (Ascii.eqb c ".")) (base64.Encode x) = true.
Proof.
  induction x as [| a | a b | a b c s IH] using string_ind3.
  - reflexivity.
  - cbn [base64.Encode]. destruct (base64.split3 _ _ _) as [[[s0 s1] s2] s3].
    cbn [bytes.all]. now rewrite !encode_char_plain.
  - cbn [base64.Encode]. destruct (base64.split3 _ _ _) as [[[s0 s1] s2] s3].
    cbn [bytes.all]. now rewrite !encode_char_plain.
  - rewrite Encode_three. destruct (base64.split3 _ _ _) as [[[s0 s1] s2] s3].
    cbn [bytes.all]. now rewrite !encode_char_plain, IH.
Qed.

Lemma DecodeSegment_EncodeSegment (x : string) :
  jwt.DecodeSegment (jwt.EncodeSegment x) = Some x.
Proof.
  unfold jwt.DecodeSegment, jwt.EncodeSegment.
  induction x as [| a | a b | a b c s IH] using string_ind3.
  - reflexivity.
  - cbn [base64.Encode].
    pose proof (join4_split3 a Ascii.zero Ascii.zero) as J.
    destruct (base64.split3 _ _ _) as [[[s0 s1] s2] s3].
    cbn [String.length]. change (Nat.modulo 2 4) with 2.
    cbn [Nat.eqb Nat.sub base64.equals]. rewrite !append_cons, append_nil_l.
    rewrite (Decode_char _ s0) by apply decode_encode_char. cbn [app].
    rewrite (Decode_char _ s1) by apply decode_encode_char. cbn [app].
    rewrite Decode_one_left.
    destruct s0 as [[[[[? ?] ?] ?] ?] ?], s1 as [[[[[? ?] ?] ?] ?] ?],
             s2 as [[[[[? ?] ?] ?] ?] ?], s3 as [[[[[? ?] ?] ?] ?] ?].
    cbn in J |- *. now inversion J.
  - cbn [base64.Encode].
    pose proof (join4_split3 a b Ascii.zero) as J.
    destruct (base64.split3 _ _ _) as [[[s0 s1] s2] s3].
    cbn [String.length]. change (Nat.modulo 3 4) with 3.
    cbn [Nat.eqb Nat.sub base64.equals]. rewrite !append_cons, append_nil_l.
    rewrite (Decode_char _ s0) by apply decode_encode_char. cbn [app].
    rewrite (Decode_char _ s1) by apply decode_encode_char. cbn [app].
    rewrite (Decode_char _ s2) by apply decode_encode_char. cbn [app].
    rewrite Decode_two_left.
    destruct s0 as [[[[[? ?] ?] ?] ?] ?], s1 as [[[[[? ?] ?] ?] ?] ?],
             s2 as [[[[[? ?] ?] ?] ?] ?], s3 as [[[[[? ?] ?] ?] ?] ?].
    cbn in J |- *. now inversion J.
  - rewrite Encode_three.
    pose proof (join4_split3 a b c) as J.
    destruct (base64.split3 _ _ _) as [[[s0 s1] s2] s3].
    cbn [String.length].
    replace (S (S (S (S (String.length (base64.Encode s))))))
      with (String.length (base64.Encode s) + 1 * 4) by lia.
    rewrite Nat.Div0.mod_add. rewrite !append_cons.
    rewrite (Decode_char _ s0) by apply decode_encode_char. cbn [app].
    rewrite (Decode_char _ s1) by apply decode_encode_char. cbn [app].
    rewrite (Decode_char _ s2) by apply decode_encode_char. cbn [app].
    rewrite (Decode_char _ s3) by apply decode_encode_char.
    cbv zeta in IH. rewrite IH. rewrite J. reflexivity.
Qed.

(* ===================================================================== *)
(** * The verb %f always writes a sample value *)
(* ===================================================================== *)

Lemma digit_is_digit (k : Z) : (0 <= k < 10)%Z -> bytes.is_digit (fmt.digit k) = true.
Proof.
  intros H.
  assert (E : (k = 0 \/ k = 1 \/ k = 2 \/ k = 3 \/ k = 4 \/ k = 5 \/ k = 6
               \/ k = 7 \/ k = 8 \/ k = 9)%Z) by lia.
  repeat (destruct E as [E|E]; [subst k; reflexivity|]). subst k; reflexivity.
Qed.

Lemma digit_mod (n : Z) : bytes.is_digit (fmt.digit (n mod 10)) = true.
Proof. apply digit_is_digit, Z.mod_pos_bound. lia. Qed.

Lemma digits_all (fuel : nat) : forall n acc,
  bytes.all bytes.is_digit acc = true ->
  bytes.all bytes.is_digit (fmt.digits fuel n acc) = true.
Proof.
  induction fuel as [|fuel IH]; intros n acc Hacc; cbn [fmt.digits]; [exact Hacc|].
  assert (H : bytes.all bytes.is_digit (String (fmt.digit (n mod 10)) acc) = true).
  { cbn [bytes.all]. now rewrite digit_mod, Hacc. }
  destruct (n <? 10)%Z; [exact H | now apply IH].
Qed.

Lemma digits_grow (fuel : nat) : forall n acc,
  acc <> "" -> fmt.digits fuel n acc <> "".
Proof.
  induction fuel as [|fuel IH]; intros n acc Hacc; cbn [fmt.digits]; [exact Hacc|].
  destruct (n <? 10)%Z; [discriminate | apply IH; discriminate].
Qed.

Lemma itoa_digits (n : Z) :
  bytes.all bytes.is_digit (fmt.itoa n) = true /\ fmt.itoa n <> "".
Proof.
  unfold fmt.itoa. split; [now apply digits_all|].
  cbn [fmt.digits]. destruct (n <? 10)%Z; [discriminate | apply digits_grow; discriminate].
Qed.

Lemma six_digits (n : Z) :
  String.length (fmt.six n) = 6 /\ bytes.all bytes.is_digit (fmt.six n) = true.
Proof.
  split; [reflexivity|]. unfold fmt.six. cbn [fold_right bytes.all].
  now rewrite !digit_mod.
Qed.

Lemma decimal6_from_app (w f : string) : forall seen,
  bytes.all bytes.is_digit w = true ->
  (seen = true \/ w <> "") ->
  String.length f = 6 -> bytes.all bytes.is_digit f = true ->
  fmt.decimal6_from (w ++ "." ++ f) seen = true.
Proof.
  induction w as [|c w IH]; intros seen Hw Hs Hlen Hf.
  - destruct Hs as [->|Hs]; [|congruence].
    change ("" ++ "." ++ f) with (String "." f). cbn [fmt.decimal6_from].
    change (bytes.is_digit ".") with false. cbn iota.
    change (Ascii.eqb "." ".") with true. cbn iota.
    rewrite Hlen, Hf. reflexivity.
  - cbn [bytes.all] in Hw. apply andb_true_iff in Hw as [Hc Hw].
    change (String c w ++ "." ++ f) with (String c (w ++ "." ++ f)).
    cbn [fmt.decimal6_from]. rewrite Hc.
    apply IH; auto.
Qed.

Lemma fixed6_decimal (n : Z) : fmt.decimal6 (fmt.fixed6 n) = true.
Proof.
  unfold fmt.fixed6, fmt.decimal6.
  destruct (itoa_digits (n / 1000000)) as [Ha Hn].
  destruct (six_digits (n mod 1000000)) as [Hl Hd].
  apply decimal6_from_app; auto.
Qed.

Lemma f_is_number (x : fmt.float64) : fmt.number (fmt.f x) = true.
Proof.
  destruct x as [[]|[]| |[] m e]; try reflexivity; unfold fmt.number, fmt.f, fmt.sign.
  - change ("-" ++ fmt.fixed6 (fmt.millionths m e))
      with (String "-" (fmt.fixed6 (fmt.millionths m e))).
    cbn [bytes.take bytes.skip]. rewrite fixed6_decimal.
    change (String.eqb "-" "-") with true.
    now rewrite !orb_true_r.
  - change ("" ++ fmt.fixed6 (fmt.millionths m e)) with (fmt.fixed6 (fmt.millionths m e)).
    rewrite fixed6_decimal. now rewrite !orb_true_r.
Qed.

(* ===================================================================== *)
(** * The probe handler: refusals and synthetic answers *)
(* ===================================================================== *)

Lemma Split_nonempty (s : string) (sep : ascii) : strings.Split s sep <> [].
Proof.
  destruct s as [|c s]; simpl; [discriminate|].
  destruct (Ascii.eqb c sep); [discriminate|].
  destruct (strings.Split s sep); discriminate.
Qed.

Lemma arguments_nonempty (env : main.Env) (r : http.Request) :
  main.arguments env r
  = hd "" (main.arguments env r) :: tl (main.arguments env r).
Proof.
  unfold main.arguments.
  destruct (strings.Split _ " ") as [|a l] eqn:E.
  - now apply Split_nonempty in E.
  - reflexivity.
Qed.

(** What [runScript] answers for the command line of a request. *)
Lemma runScript_arguments (env : main.Env) (r : http.Request) :
  main.runScript env (main.arguments env r)
  = let out := main.Output env (hd "" (main.arguments env r))
                               (tl (main.arguments env r)) in
    if snd out then Some (fst out, true) else Some ("", false).
Proof.
  rewrite (arguments_nonempty env r) at 1. unfold main.runScript.
  destruct (main.Output env _ _) as [o ok]. reflexivity.
Qed.

(** C8: a request that names a script the registry does not hold is
    answered with status 400 and the body "Script not found" (and the
    newline [http.Error] ends a message with), and no process is started. *)
Theorem unknown_script_is_rejected (env : main.Env) (r : http.Request)
    (wd : main.World) :
  http.Get (http.Query r) "script" <> "" ->
  config.GetScript (main.exporterConfig env) (http.Get (http.Query r) "script") = "" ->
  http.Status (main.writer wd) = None ->
  snd (main.metricsHandler env r wd) = main.Returned
  /\ http.status (main.writer (fst (main.metricsHandler env r wd)))
     = http.StatusBadRequest
  /\ http.Body (main.writer (fst (main.metricsHandler env r wd)))
     = http.Body (main.writer wd) ++ "Script not found" ++ http.nl
  /\ main.started (fst (main.metricsHandler env r wd)) = main.started wd.
Proof.
  intros Hname Hscript Hfresh. unfold main.metricsHandler.
  apply String.eqb_neq in Hname. rewrite Hname, Hscript. simpl.
  unfold http.status. simpl. rewrite Hfresh. auto.
Qed.

Lemma unknown_script_witness :
  let env := sample.env sample.open_cfg "up{} 1" true in
  let r := sample.request [("script", "pong")] "" None in
  snd (main.metricsHandler env r main.start) = main.Returned
  /\ http.status (main.writer (fst (main.metricsHandler env r main.start)))
     = http.StatusBadRequest
  /\ http.Body (main.writer (fst (main.metricsHandler env r main.start)))
     = http.Body (main.writer main.start) ++ "Script not found" ++ http.nl
  /\ main.started (fst (main.metricsHandler env r main.start))
     = main.started main.start.
Proof.
  apply (unknown_script_is_rejected
           (sample.env sample.open_cfg "up{} 1" true)
           (sample.request [("script", "pong")] "" None) main.start).
  - vm_compute. discriminate.
  - vm_compute. reflexivity.
  - reflexivity.
Defined.

(** C7: when the script of a request is registered and running it fails,
    the answer has status 200 and its body is the six synthetic lines
    with [script_success{} 0] and the duration printed by [%f], which is a
    well-formed sample value; whatever the process printed is not in it. *)
Theorem failed_script_is_reported (env : main.Env) (r : http.Request)
    (wd : main.World) :
  http.Get (http.Query r) "script" <> "" ->
  config.GetScript (main.exporterConfig env) (http.Get (http.Query r) "script") <> "" ->
  snd (main.Output env (hd "" (main.arguments env r)) (tl (main.arguments env r)))
  = false ->
  http.Status (main.writer wd) = None ->
  snd (main.metricsHandler env r wd) = main.Returned
  /\ http.status (main.writer (fst (main.metricsHandler env r wd))) = http.StatusOK
  /\ http.Body (main.writer (fst (main.metricsHandler env r wd)))
     = http.Body (main.writer wd)
       ++ "# HELP script_success Script exit status (0 = error, 1 = success)."
       ++ http.nl ++ "# TYPE script_success gauge"
       ++ http.nl ++ "script_success{} 0"
       ++ http.nl ++ "# HELP script_duration_seconds Script execution time, in seconds."
       ++ http.nl ++ "# TYPE script_duration_seconds gauge"
       ++ http.nl ++ "script_duration_seconds{} " ++ fmt.f (main.scriptSeconds env)
       ++ http.nl
  /\ fmt.number (fmt.f (main.scriptSeconds env)) = true
  /\ main.started (fst (main.metricsHandler env r wd))
     = (main.started wd ++ [main.arguments env r])%list.
Proof.
  intros Hname Hscript Hfail Hfresh. unfold main.metricsHandler.
  apply String.eqb_neq in Hname, Hscript. rewrite Hname, Hscript.
  rewrite runScript_arguments. cbv zeta. rewrite Hfail.
  unfold http.status. cbn. rewrite Hfresh.
  repeat split; auto using f_is_number.
Qed.

Lemma failed_script_witness :
  let env := sample.env sample.open_cfg "up{} 1" false in
  let r := sample.request [("script", "ping")] "" None in
  snd (main.metricsHandler env r main.start) = main.Returned
  /\ http.status (main.writer (fst (main.metricsHandler env r main.start)))
     = http.StatusOK
  /\ http.Body (main.writer (fst (main.metricsHandler env r main.start)))
     = http.Body (main.writer main.start)
       ++ "# HELP script_success Script exit status (0 = error, 1 = success)."
       ++ http.nl ++ "# TYPE script_success gauge"
       ++ http.nl ++ "script_success{} 0"
       ++ http.nl ++ "# HELP script_duration_seconds Script execution time, in seconds."
       ++ http.nl ++ "# TYPE script_duration_seconds gauge"
       ++ http.nl ++ "script_duration_seconds{} " ++ fmt.f (main.scriptSeconds env)
       ++ http.nl
  /\ fmt.number (fmt.f (main.scriptSeconds env)) = true
  /\ main.started (fst (main.metricsHandler env r main.start))
     = (main.started main.start ++ [main.arguments env r])%list.
Proof.
  apply (failed_script_is_reported
           (sample.env sample.open_cfg "up{} 1" false)
           (sample.request [("script", "ping")] "" None) main.start).
  - vm_compute. discriminate.
  - vm_compute. discriminate.
  - reflexivity.
  - reflexivity.
Defined.

(** C10: when the script of a request succeeds and the request says
    [output=ignore], the body is the six synthetic lines with
    [script_success{} 1] and nothing else: it is the same whatever the
    script printed. *)
Theorem ignored_output_is_not_sent (env : main.Env) (r : http.Request)
    (wd : main.World) :
  http.Get (http.Query r) "script" <> "" ->
  config.GetScript (main.exporterConfig env) (http.Get (http.Query r) "script") <> "" ->
  snd (main.Output env (hd "" (main.arguments env r)) (tl (main.arguments env r)))
  = true ->
  http.Get (http.Query r) "output" = "ignore" ->
  http.Status (main.writer wd) = None ->
  snd (main.metricsHandler env r wd) = main.Returned
  /\ http.status (main.writer (fst (main.metricsHandler env r wd))) = http.StatusOK
  /\ http.Body (main.writer (fst (main.metricsHandler env r wd)))
     = http.Body (main.writer wd)
       ++ "# HELP script_success Script exit status (0 = error, 1 = success)."
       ++ http.nl ++ "# TYPE script_success gauge"
       ++ http.nl ++ "script_success{} 1"
       ++ http.nl ++ "# HELP script_duration_seconds Script execution time, in seconds."
       ++ http.nl ++ "# TYPE script_duration_seconds gauge"
       ++ http.nl ++ "script_duration_seconds{} " ++ fmt.f (main.scriptSeconds env)
       ++ http.nl.
Proof.
  intros Hname Hscript Hok Hignore Hfresh. unfold main.metricsHandler.
  apply String.eqb_neq in Hname, Hscript. rewrite Hname, Hscript.
  rewrite runScript_arguments. cbv zeta. rewrite Hok, Hignore.
  unfold http.status. cbn. rewrite Hfresh. auto.
Qed.

Lemma ignored_output_witness :
  let env := sample.env sample.open_cfg "up{} 1" true in
  let r := sample.request [("script", "ping"); ("output", "ignore")] "" None in
  snd (main.metricsHandler env r main.start) = main.Returned
  /\ http.status (main.writer (fst (main.metricsHandler env r main.start)))
     = http.StatusOK
  /\ http.Body (main.writer (fst (main.metricsHandler env r main.start)))
     = http.Body (main.writer main.start)
       ++ "# HELP script_success Script exit status (0 = error, 1 = success)."
       ++ http.nl ++ "# TYPE script_success gauge"
       ++ http.nl ++ "script_success{} 1"
       ++ http.nl ++ "# HELP script_duration_seconds Script execution time, in seconds."
       ++ http.nl ++ "# TYPE script_duration_seconds gauge"
       ++ http.nl ++ "script_duration_seconds{} " ++ fmt.f (main.scriptSeconds env)
       ++ http.nl.
Proof.
  apply (ignored_output_is_not_sent
           (sample.env sample.open_cfg "up{} 1" true)
           (sample.request [("script", "ping"); ("output", "ignore")] "" None)
           main.start).
  - vm_compute. discriminate.
  - vm_compute. discriminate.
  - reflexivity.
  - vm_compute. reflexivity.
  - reflexivity.
Defined.

(* ===================================================================== *)
(** * The authentication gate *)
(* ===================================================================== *)

(** The gate lets a request through exactly when every active scheme
    accepts it; otherwise it answers with [deny], which does not look at
    the request. *)
Lemma auth_allowed (env : main.Env) (h : main.HandlerFunc) (r : http.Request)
    (wd : main.World) :
  main.auth env h r wd
  = if policy.allowed env r then h r (policy.challenge env wd)
    else main.deny (policy.challenge env wd).
Proof.
  assert (B : main.bearer env h r (policy.challenge env wd)
              = if implb (config.BearerAuth_Active (main.exporterConfig env))
                         (policy.bearer_ok env r)
                then h r (policy.challenge env wd)
                else main.deny (policy.challenge env wd)).
  { unfold main.bearer, policy.bearer_ok.
    destruct (config.BearerAuth_Active _); [|reflexivity]. cbn [implb].
    destruct (String.eqb_spec (http.Get (http.Header r) "Authorization") "") as [E|E].
    - rewrite E. reflexivity.
    - destruct (strings.Split _ " ") as [|a [|b [|c l]]]; try reflexivity.
      destruct (String.eqb (strings.ToLower a) "bearer"); [|reflexivity].
      cbn [negb andb]. destruct (main.checkJWT env b); reflexivity. }
  unfold main.auth, policy.allowed, policy.basic_ok.
  unfold policy.challenge in *.
  destruct (config.BasicAuth_Active _); cbn [implb]; [|exact B].
  destruct (http.BasicAuth r) as [[u p]|]; [|reflexivity].
  destruct (String.eqb u _); [|reflexivity].
  destruct (String.eqb p _); [|reflexivity].
  exact B.
Qed.

Lemma deny_response (wd : main.World) :
  http.Status (main.writer wd) = None ->
  http.status (main.writer (fst (main.deny wd))) = http.StatusUnauthorized
  /\ http.Body (main.writer (fst (main.deny wd)))
     = http.Body (main.writer wd) ++ "Not authorized" ++ http.nl.
Proof. intros H. unfold http.status. cbn. rewrite H. auto. Qed.

Lemma challenge_Status (env : main.Env) (wd : main.World) :
  http.Status (main.writer (policy.challenge env wd)) = http.Status (main.writer wd).
Proof. unfold policy.challenge. now destruct (config.BasicAuth_Active _). Qed.

Lemma challenge_Body (env : main.Env) (wd : main.World) :
  http.Body (main.writer (policy.challenge env wd)) = http.Body (main.writer wd).
Proof. unfold policy.challenge. now destruct (config.BasicAuth_Active _). Qed.

Lemma denied_not_allowed (env : main.Env) (r : http.Request) :
  policy.denied env r -> policy.allowed env r = false.
Proof.
  unfold policy.allowed, policy.basic_ok, policy.bearer_ok.
  intros [Ha Hb | u p Ha Hb Hu | u p Ha Hb Hp | Ha Hh | Ha Hl
          | s t Ha Hs Hw | s t e Ha Hs Ht]; rewrite Ha; cbn [implb].
  - now rewrite Hb.
  - rewrite Hb. apply String.eqb_neq in Hu. now rewrite Hu.
  - rewrite Hb. apply String.eqb_neq in Hp. rewrite Hp.
    now rewrite andb_false_r.
  - rewrite Hh. apply andb_false_r.
  - destruct (strings.Split _ " ") as [|a [|b [|c l]]];
      try apply andb_false_r. now contradiction Hl.
  - rewrite Hs. apply String.eqb_neq in Hw. rewrite Hw. apply andb_false_r.
  - rewrite Hs, Ht. rewrite !andb_false_r. reflexivity.
Qed.

(** C5: the gate is the conjunction of the active schemes.  A request
    reaches the inner handler exactly when each active scheme accepts it;
    with both schemes active that is: the Basic credentials match and the
    Bearer token validates, so that a request with the right credentials
    and no [Authorization] header is answered with 401; with no scheme
    active every request reaches the inner handler, in an unchanged
    world. *)
Theorem gate_is_conjunction (env : main.Env) (h : main.HandlerFunc)
    (r : http.Request) (wd : main.World) :
  main.auth env h r wd
  = (if policy.allowed env r then h r (policy.challenge env wd)
     else main.deny (policy.challenge env wd))
  /\ (config.BasicAuth_Active (main.exporterConfig env) = true ->
      config.BearerAuth_Active (main.exporterConfig env) = true ->
      policy.allowed env r = policy.basic_ok env r && policy.bearer_ok env r)
  /\ (config.BasicAuth_Active (main.exporterConfig env) = true ->
      config.BearerAuth_Active (main.exporterConfig env) = true ->
      policy.basic_ok env r = true ->
      http.Get (http.Header r) "Authorization" = "" ->
      http.Status (main.writer wd) = None ->
      main.auth env h r wd = main.deny (policy.challenge env wd)
      /\ http.status (main.writer (fst (main.auth env h r wd)))
         = http.StatusUnauthorized)
  /\ (config.BasicAuth_Active (main.exporterConfig env) = false ->
      config.BearerAuth_Active (main.exporterConfig env) = false ->
      main.auth env h r wd = h r wd).
Proof.
  split; [apply auth_allowed|]. rewrite auth_allowed.
  unfold policy.allowed, policy.challenge.
  split; [intros -> ->; reflexivity|]. split.
  - intros Ha Hb Hok Hh Hfresh. rewrite Ha, Hb, Hok.
    unfold policy.bearer_ok. rewrite Hh. cbn [implb andb].
    split; [reflexivity|]. apply deny_response. exact Hfresh.
  - intros -> ->. reflexivity.
Qed.

Lemma gate_witness :
  let env := sample.env (sample.cfg true true "secret") "up{} 1" true in
  let open := sample.env sample.open_cfg "up{} 1" true in
  let r := sample.request [("script", "ping")] "" (Some ("prometheus", "s3cret")) in
  (main.auth env (main.metricsHandler env) r main.start
   = main.deny (policy.challenge env main.start)
   /\ http.status (main.writer (fst (main.auth env (main.metricsHandler env) r
                                               main.start)))
      = http.StatusUnauthorized)
  /\ main.auth open (main.metricsHandler open) r main.start
     = main.metricsHandler open r main.start.
Proof.
  split.
  - apply (gate_is_conjunction
             (sample.env (sample.cfg true true "secret") "up{} 1" true)
             (main.metricsHandler
                (sample.env (sample.cfg true true "secret") "up{} 1" true))
             (sample.request [("script", "ping")] ""
                (Some ("prometheus", "s3cret"))) main.start); reflexivity.
  - apply (gate_is_conjunction
             (sample.env sample.open_cfg "up{} 1" true)
             (main.metricsHandler (sample.env sample.open_cfg "up{} 1" true))
             (sample.request [("script", "ping")] ""
                (Some ("prometheus", "s3cret"))) main.start); reflexivity.
Defined.

(** C9: every request that fails a check of the gate (no Basic
    credentials, a wrong username, a wrong password, no [Authorization]
    header, a header that is not two words, a first word that is not
    [bearer], a token that [checkJWT] refuses) gets the same answer,
    whatever the check and whatever the inner handler: status 401 and the
    body "Not authorized" with the newline of [http.Error]. *)
Theorem denials_are_uniform (env : main.Env) (h1 h2 : main.HandlerFunc)
    (r1 r2 : http.Request) (wd : main.World) :
  policy.denied env r1 -> policy.denied env r2 ->
  http.Status (main.writer wd) = None ->
  main.auth env h1 r1 wd = main.auth env h2 r2 wd
  /\ snd (main.auth env h1 r1 wd) = main.Returned
  /\ http.status (main.writer (fst (main.auth env h1 r1 wd)))
     = http.StatusUnauthorized
  /\ http.Body (main.writer (fst (main.auth env h1 r1 wd)))
     = http.Body (main.writer wd) ++ "Not authorized" ++ http.nl.
Proof.
  intros D1 D2 Hfresh. rewrite !auth_allowed.
  rewrite (denied_not_allowed _ _ D1), (denied_not_allowed _ _ D2).
  split; [reflexivity|]. split; [reflexivity|].
  rewrite <- (challenge_Status env) in Hfresh.
  destruct (deny_response _ Hfresh) as [Hs Hb].
  rewrite Hs, Hb, challenge_Body. auto.
Qed.

Lemma denials_witness :
  let env := sample.env (sample.cfg true true "secret") "up{} 1" true in
  let r1 := sample.request [("script", "ping")] "Bearer x.y.z"
              (Some ("prometheus", "guess")) in
  let r2 := sample.request [("script", "ping")] ""
              (Some ("prometheus", "s3cret")) in
  main.auth env (main.metricsHandler env) r1 main.start
  = main.auth env (main.metricsHandler env) r2 main.start
  /\ snd (main.auth env (main.metricsHandler env) r1 main.start) = main.Returned
  /\ http.status (main.writer (fst (main.auth env (main.metricsHandler env) r1
                                              main.start)))
     = http.StatusUnauthorized
  /\ http.Body (main.writer (fst (main.auth env (main.metricsHandler env) r1
                                            main.start)))
     = http.Body (main.writer main.start) ++ "Not authorized" ++ http.nl.
Proof.
  apply (denials_are_uniform
           (sample.env (sample.cfg true true "secret") "up{} 1" true)).
  - apply (policy.wrong_password _ _ "prometheus" "guess");
      [reflexivity | reflexivity | discriminate].
  - apply policy.missing_header; reflexivity.
  - reflexivity.
Defined.

(* ===================================================================== *)
(** * The in-flight gauge *)
(* ===================================================================== *)

Lemma value_Inc (sn : string) (v : gmap string Z) :
  prometheus.value (prometheus.Inc sn v) sn = (prometheus.value v sn + 1)%Z.
Proof. unfold prometheus.Inc, prometheus.value at 1. now rewrite lookup_insert_eq. Qed.

Lemma value_Dec (sn : string) (v : gmap string Z) :
  prometheus.value (prometheus.Dec sn v) sn = (prometheus.value v sn - 1)%Z.
Proof. unfold prometheus.Dec, prometheus.value at 1. now rewrite lookup_insert_eq. Qed.

Lemma value_Inc_other (sn sn' : string) (v : gmap string Z) :
  sn <> sn' -> prometheus.value (prometheus.Inc sn v) sn' = prometheus.value v sn'.
Proof. intros H. unfold prometheus.Inc, prometheus.value at 1. now rewrite lookup_insert_ne. Qed.

Lemma value_Dec_other (sn sn' : string) (v : gmap string Z) :
  sn <> sn' -> prometheus.value (prometheus.Dec sn v) sn' = prometheus.value v sn'.
Proof. intros H. unfold prometheus.Dec, prometheus.value at 1. now rewrite lookup_insert_ne. Qed.

(** What [instrumentScript] makes of the world its inner handler leaves,
    for a request that names script [sn]: the deferred decrement, after
    the observation and the count when the handler returned. *)
Lemma instrumentScript_named (env : main.Env) (next : main.HandlerFunc)
    (r : http.Request) (wd : main.World) :
  http.Get (http.Query r) "script" <> "" ->
  main.instrumentScript env next r wd
  = let sn := http.Get (http.Query r) "script" in
    let inner := next r (main.with_metrics (main.inflight_Inc sn) wd) in
    (main.with_metrics (main.inflight_Dec sn)
       (match snd inner with
        | main.Returned =>
            main.with_metrics (main.observe_and_count sn (main.requestSeconds env))
                              (fst inner)
        | _ => fst inner
        end),
     snd inner).
Proof.
  intros H. apply String.eqb_neq in H. unfold main.instrumentScript. rewrite H.
  cbv zeta. destruct (next r _) as [wd' []]; reflexivity.
Qed.

(** C4: for a request that names a script, the inner handler runs in the
    world whose in-flight gauge for that script is one higher, and however
    it ends (it returns, it panics) the gauge it leaves is lowered by one
    and the gauges of the other scripts are passed on; so an inner handler
    that leaves the gauge alone gives a request that leaves it at its
    first value.  For a request with no script name [instrumentScript] is
    the inner handler. *)
Theorem inflight_gauge_is_balanced (env : main.Env) (next : main.HandlerFunc)
    (r : http.Request) (wd : main.World) (sn : string) :
  http.Get (http.Query r) "script" = sn ->
  (sn = "" -> main.instrumentScript env next r wd = next r wd)
  /\ (sn <> "" ->
      let entered := main.with_metrics (main.inflight_Inc sn) wd in
      policy.inflight sn entered = (policy.inflight sn wd + 1)%Z
      /\ (forall other, sn <> other ->
            policy.inflight other entered = policy.inflight other wd)
      /\ snd (main.instrumentScript env next r wd) = snd (next r entered)
      /\ policy.inflight sn (fst (main.instrumentScript env next r wd))
         = (policy.inflight sn (fst (next r entered)) - 1)%Z
      /\ (forall other, sn <> other ->
            policy.inflight other (fst (main.instrumentScript env next r wd))
            = policy.inflight other (fst (next r entered)))
      /\ (policy.inflight sn (fst (next r entered)) = policy.inflight sn entered ->
          policy.inflight sn (fst (main.instrumentScript env next r wd))
          = policy.inflight sn wd)).
Proof.
  intros Hsn. split.
  - intros E. unfold main.instrumentScript. now rewrite Hsn, E.
  - intros Hne. cbv zeta. rewrite <- Hsn in Hne.
    rewrite (instrumentScript_named env next r wd Hne), Hsn. cbv zeta.
    set (inner := next r (main.with_metrics (main.inflight_Inc sn) wd)).
    assert (Hdec : policy.inflight sn
                     (main.with_metrics (main.inflight_Dec sn)
                        match snd inner with
                        | main.Returned =>
                            main.with_metrics
                              (main.observe_and_count sn (main.requestSeconds env))
                              (fst inner)
                        | _ => fst inner
                        end)
                   = (policy.inflight sn (fst inner) - 1)%Z).
    { unfold policy.inflight. destruct (snd inner); cbn; apply value_Dec. }
    assert (Hinc : policy.inflight sn (main.with_metrics (main.inflight_Inc sn) wd)
                   = (policy.inflight sn wd + 1)%Z).
    { unfold policy.inflight. cbn. apply value_Inc. }
    repeat split.
    + exact Hinc.
    + intros other Ho. unfold policy.inflight. cbn. now apply value_Inc_other.
    + cbn [fst]. exact Hdec.
    + intros other Ho. unfold policy.inflight. cbn [fst].
      destruct (snd inner); cbn; now apply value_Dec_other.
    + intros Hkeep. cbn [fst]. rewrite Hdec, Hkeep, Hinc. lia.
Qed.

Lemma inflight_gauge_witness :
  let env := sample.env sample.open_cfg "up{} 1" true in
  let r := sample.request [("script", "ping")] "" None in
  let entered := main.with_metrics (main.inflight_Inc "ping") main.start in
  policy.inflight "ping" entered = (policy.inflight "ping" main.start + 1)%Z
  /\ (forall other, "ping" <> other ->
        policy.inflight other entered = policy.inflight other main.start)
  /\ snd (main.instrumentScript env (main.metricsHandler env) r main.start)
     = snd (main.metricsHandler env r entered)
  /\ policy.inflight "ping"
       (fst (main.instrumentScript env (main.metricsHandler env) r main.start))
     = (policy.inflight "ping" (fst (main.metricsHandler env r entered)) - 1)%Z
  /\ (forall other, "ping" <> other ->
        policy.inflight other
          (fst (main.instrumentScript env (main.metricsHandler env) r main.start))
        = policy.inflight other (fst (main.metricsHandler env r entered)))
  /\ (policy.inflight "ping" (fst (main.metricsHandler env r entered))
      = policy.inflight "ping" entered ->
      policy.inflight "ping"
        (fst (main.instrumentScript env (main.metricsHandler env) r main.start))
      = policy.inflight "ping" main.start).
Proof.
  apply (inflight_gauge_is_balanced
           (sample.env sample.open_cfg "up{} 1" true)
           (main.metricsHandler (sample.env sample.open_cfg "up{} 1" true))
           (sample.request [("script", "ping")] "" None) main.start "ping").
  - vm_compute. reflexivity.
  - discriminate.
Defined.

(* ===================================================================== *)
(** * Tokens: [createJWT] and [checkJWT] *)
(* ===================================================================== *)

(** A token of [SignedString] splits at its two points into the header,
    the claims and the signature. *)
Lemma Split_SignedString (key : string) :
  strings.Split (jwt.SignedString key) "."
  = [jwt.EncodeSegment jwt.header_HS256; jwt.EncodeSegment jwt.no_claims;
     jwt.Sign jwt.HS256 jwt.SigningString key].
Proof.
  unfold jwt.SignedString, jwt.SigningString, jwt.Sign, jwt.EncodeSegment.
  rewrite !append_assoc. rewrite !append_cons, !append_nil_l.
  rewrite Split_at by apply Encode_plain.
  rewrite Split_at by apply Encode_plain.
  rewrite Split_none by apply Encode_plain.
  reflexivity.
Qed.

(** What [jwt.Parse] answers for a token of [SignedString key] when the
    key function gives [key'] for HS256: the comparison of the two
    HMAC-SHA256 tags of the signing string. *)
Lemma Parse_SignedString (json : jwt.JSON) (key key' : string)
    (keyFunc : jwt.SigningMethod -> option string) :
  jwt.header_alg json jwt.header_HS256 = Some (Some "HS256") ->
  jwt.claims_valid json jwt.no_claims = Some true ->
  keyFunc jwt.HS256 = Some key' ->
  jwt.Parse json (jwt.SignedString key) keyFunc
  = if String.eqb (hmac.Sum sha2.SHA256 key jwt.SigningString)
                  (hmac.Sum sha2.SHA256 key' jwt.SigningString)
    then None else Some jwt.SignatureInvalid.
Proof.
  intros Hh Hc Hk. unfold jwt.Parse. rewrite Split_SignedString.
  rewrite !DecodeSegment_EncodeSegment, Hh, Hc.
  change (jwt.GetSigningMethod "HS256") with (Some jwt.HS256).
  cbv iota beta. rewrite Hk. cbn [negb].
  unfold jwt.Verify, jwt.Sign. rewrite DecodeSegment_EncodeSegment.
  reflexivity.
Qed.

(** C6, as the code has it: a token that [createJWT] makes with secret
    [S] passes [checkJWT] under the same secret, and it passes under a
    secret [S'] exactly when [S'] gives the signing string the same
    HMAC-SHA256 tag as [S]; a different secret with the same tag is
    accepted as well.  The JSON decoder is one that reads the header and
    the empty claims that [createJWT] writes. *)
Theorem token_round_trip (issuer checker : main.Env) :
  jwt.header_alg (main.json checker) jwt.header_HS256 = Some (Some "HS256") ->
  jwt.claims_valid (main.json checker) jwt.no_claims = Some true ->
  snd (main.createJWT issuer) = None
  /\ (config.BearerAuth_SigningKey (main.exporterConfig checker)
      = config.BearerAuth_SigningKey (main.exporterConfig issuer) ->
      main.checkJWT checker (fst (main.createJWT issuer)) = None)
  /\ (main.checkJWT checker (fst (main.createJWT issuer)) = None
      <-> hmac.Sum sha2.SHA256
            (config.BearerAuth_SigningKey (main.exporterConfig checker))
            jwt.SigningString
          = hmac.Sum sha2.SHA256
              (config.BearerAuth_SigningKey (main.exporterConfig issuer))
              jwt.SigningString).
Proof.
  intros Hh Hc.
  assert (P : main.checkJWT checker (fst (main.createJWT issuer))
              = if String.eqb
                     (hmac.Sum sha2.SHA256
                        (config.BearerAuth_SigningKey (main.exporterConfig issuer))
                        jwt.SigningString)
                     (hmac.Sum sha2.SHA256
                        (config.BearerAuth_SigningKey (main.exporterConfig checker))
                        jwt.SigningString)
                then None else Some jwt.SignatureInvalid).
  { unfold main.checkJWT, main.createJWT. cbn [fst].
    now apply Parse_SignedString. }
  split; [reflexivity|]. rewrite P. split.
  - intros ->. now rewrite String.eqb_refl.
  - destruct (String.eqb_spec
                (hmac.Sum sha2.SHA256
                   (config.BearerAuth_SigningKey (main.exporterConfig issuer))
                   jwt.SigningString)
                (hmac.Sum sha2.SHA256
                   (config.BearerAuth_SigningKey (main.exporterConfig checker))
                   jwt.SigningString)) as [E|E]; split; intros H;
      [now rewrite E | reflexivity | discriminate | now rewrite H in E].
Qed.

Lemma token_round_trip_witness :
  let env := sample.env (sample.cfg false true "secret") "up{} 1" true in
  snd (main.createJWT env) = None
  /\ (config.BearerAuth_SigningKey (main.exporterConfig env)
      = config.BearerAuth_SigningKey (main.exporterConfig env) ->
      main.checkJWT env (fst (main.createJWT env)) = None)
  /\ (main.checkJWT env (fst (main.createJWT env)) = None
      <-> hmac.Sum sha2.SHA256
            (config.BearerAuth_SigningKey (main.exporterConfig env))
            jwt.SigningString
          = hmac.Sum sha2.SHA256
              (config.BearerAuth_SigningKey (main.exporterConfig env))
              jwt.SigningString).
Proof.
  apply (token_round_trip
           (sample.env (sample.cfg false true "secret") "up{} 1" true)
           (sample.env (sample.cfg false true "secret") "up{} 1" true));
    reflexivity.
Defined.

(** C6, as the spec words it, fails: the secret ["secret"] followed by a
    zero byte is a different secret, and [checkJWT] under it accepts the
    token made with ["secret"]. *)
Lemma token_of_padded_secret :
  let S := "secret" in
  let S' := "secret" ++ String Ascii.zero "" in
  String.eqb S S' = false
  /\ main.checkJWT (sample.env (sample.cfg false true S') "up{} 1" true)
       (fst (main.createJWT (sample.env (sample.cfg false true S) "up{} 1" true)))
     = None.
Proof. vm_compute. split; reflexivity. Qed.

(* ===================================================================== *)
(** * The two patterns of a literal prefix *)
(* ===================================================================== *)

Lemma all_impl (P Q : ascii -> bool) (s : string) :
  (forall c, P c = true -> Q c = true) ->
  bytes.all P s = true -> bytes.all Q s = true.
Proof.
  intros H. induction s as [|c s IH]; cbn [bytes.all]; [reflexivity|].
  intros E. apply andb_true_iff in E as [Ec Es].
  now rewrite (H c Ec), (IH Es).
Qed.

Lemma word_is_literal (c : ascii) :
  bytes.is_word c = true -> regexp.kind_of c = regexp.KLit.
Proof.
  destruct c as [[] [] [] [] [] [] [] []]; intros H;
    first [reflexivity | discriminate H].
Qed.

Lemma word_is_ascii (c : ascii) :
  bytes.is_word c = true -> bytes.is_ascii c = true.
Proof.
  destruct c as [[] [] [] [] [] [] [] []]; intros H;
    first [reflexivity | discriminate H].
Qed.

Lemma parse_literal (p : string) : forall (n : nat) (rest : string)
    (f : regexp.frame) (stack : list regexp.frame),
  bytes.all bytes.is_word p = true ->
  regexp.parse (String.length p + n) (p ++ rest) f stack false
  = regexp.parse n rest
      (regexp.Frame (regexp.alts f)
         (List.rev (exposition.literal p) ++ regexp.cur f)%list)
      stack false.
Proof.
  induction p as [|c p IH]; intros n rest f stack H.
  - destruct f. reflexivity.
  - cbn [bytes.all] in H. apply andb_true_iff in H as [Hc Hp].
    rewrite append_cons. cbn [String.length Nat.add regexp.parse].
    rewrite (word_is_literal c Hc), (IH _ _ _ _ Hp).
    cbn [exposition.literal List.rev regexp.push regexp.alts regexp.cur].
    now rewrite <- app_assoc.
Qed.

Lemma parse_sample_head (cur : list regexp.regex) :
  regexp.parse 10 "\w*{.*}\s+" (regexp.Frame [] cur) [] false
  = regexp.Regexp
      (regexp.cat_list (List.rev (List.rev exposition.sample_head ++ cur)%list)).
Proof. reflexivity. Qed.

Lemma parse_sample_value (cur : list regexp.regex) :
  regexp.parse 19 "\w*{.*}\s+[0-9|\.]*" (regexp.Frame [] cur) [] false
  = regexp.Regexp
      (regexp.cat_list
         (List.rev (List.rev (exposition.sample_head ++ exposition.sample_value)
                    ++ cur)%list)).
Proof. reflexivity. Qed.

Lemma rev_pieces (prefix : string) (l : list regexp.regex) :
  List.rev (List.rev l ++ List.rev (exposition.literal prefix) ++ [regexp.Bol])%list
  = (regexp.Bol :: exposition.literal prefix ++ l)%list.
Proof.
  rewrite !rev_app_distr, !rev_involutive. reflexivity.
Qed.

Lemma Compile_regex1 (prefix : string) :
  bytes.all bytes.is_word prefix = true ->
  regexp.Compile ("^" ++ prefix ++ "\w*{.*}\s+")
  = regexp.Regexp (exposition.regex1 prefix).
Proof.
  intros H. unfold regexp.Compile.
  rewrite append_cons, append_nil_l. cbn [bytes.all].
  rewrite all_append, (all_impl _ _ _ word_is_ascii H).
  change (bytes.is_ascii "^" && (true && bytes.all bytes.is_ascii "\w*{.*}\s+"))
    with true. cbv iota.
  cbn [String.length]. rewrite length_append.
  change (String.length "\w*{.*}\s+") with 10.
  change (regexp.parse (S (String.length prefix + 10))
            (String "^" (prefix ++ "\w*{.*}\s+")) (regexp.Frame [] []) [] false)
    with (regexp.parse (String.length prefix + 10) (prefix ++ "\w*{.*}\s+")
            (regexp.Frame [] [regexp.Bol]) [] false).
  rewrite (parse_literal _ _ _ _ _ H).
  cbn [regexp.alts regexp.cur].
  rewrite parse_sample_head, rev_pieces. reflexivity.
Qed.

Lemma Compile_regex2 (prefix : string) :
  bytes.all bytes.is_word prefix = true ->
  regexp.Compile ("^" ++ prefix ++ "\w*{.*}\s+[0-9|\.]*")
  = regexp.Regexp (exposition.regex2 prefix).
Proof.
  intros H. unfold regexp.Compile.
  rewrite append_cons, append_nil_l. cbn [bytes.all].
  rewrite all_append, (all_impl _ _ _ word_is_ascii H).
  change (bytes.is_ascii "^"
          && (true && bytes.all bytes.is_ascii "\w*{.*}\s+[0-9|\.]*"))
    with true. cbv iota.
  cbn [String.length]. rewrite length_append.
  change (String.length "\w*{.*}\s+[0-9|\.]*") with 19.
  change (regexp.parse (S (String.length prefix + 19))
            (String "^" (prefix ++ "\w*{.*}\s+[0-9|\.]*"))
            (regexp.Frame [] []) [] false)
    with (regexp.parse (String.length prefix + 19)
            (prefix ++ "\w*{.*}\s+[0-9|\.]*")
            (regexp.Frame [] [regexp.Bol]) [] false).
  rewrite (parse_literal _ _ _ _ _ H).
  cbn [regexp.alts regexp.cur].
  rewrite parse_sample_value, rev_pieces. reflexivity.
Qed.

(* ===================================================================== *)
(** * Where the backtracking search ends first *)
(* ===================================================================== *)

Lemma ends_cons (r : regexp.regex) (rs : list regexp.regex) (pos : nat) (s : string) :
  regexp.ends (regexp.cat_list (r :: rs)) pos s
  = flat_map (fun q : regexp.place => regexp.ends (regexp.cat_list rs) (fst q) (snd q))
             (regexp.ends r pos s).
Proof. reflexivity. Qed.

Lemma ends_Lit (c : ascii) (rs : list regexp.regex) (pos : nat) (s : string) :
  regexp.ends (regexp.cat_list (regexp.Lit c :: rs)) pos (String c s)
  = regexp.ends (regexp.cat_list rs) (S pos) s.
Proof.
  rewrite ends_cons. cbn [regexp.ends regexp.one].
  rewrite Ascii.eqb_refl. cbn [flat_map fst snd]. apply app_nil_r.
Qed.

Lemma ends_Lit_other (c d : ascii) (rs : list regexp.regex) (pos : nat) (s : string) :
  Ascii.eqb d c = false ->
  regexp.ends (regexp.cat_list (regexp.Lit c :: rs)) pos (String d s) = [].
Proof.
  intros H. rewrite ends_cons. cbn [regexp.ends regexp.one].
  rewrite Ascii.eqb_sym, H. reflexivity.
Qed.

Lemma ends_literal (p : string) : forall (rs : list regexp.regex) (pos : nat)
    (s : string),
  regexp.ends (regexp.cat_list (exposition.literal p ++ rs)%list) pos (p ++ s)
  = regexp.ends (regexp.cat_list rs) (pos + String.length p) s.
Proof.
  induction p as [|c p IH]; intros rs pos s.
  - rewrite append_nil_l. cbn [exposition.literal app String.length].
    now rewrite Nat.add_0_r.
  - rewrite append_cons. cbn [exposition.literal app String.length].
    rewrite ends_Lit, IH.
    replace (pos + S (String.length p)) with (S pos + String.length p) by lia.
    reflexivity.
Qed.

Lemma ends_Bol (rs : list regexp.regex) (s : string) :
  regexp.ends (regexp.cat_list (regexp.Bol :: rs)) 0 s
  = regexp.ends (regexp.cat_list rs) 0 s.
Proof. rewrite ends_cons. cbn [regexp.ends Nat.eqb flat_map fst snd]. apply app_nil_r. Qed.

Lemma ends_Bol_later (rs : list regexp.regex) (pos : nat) (s : string) :
  regexp.ends (regexp.cat_list (regexp.Bol :: rs)) (S pos) s = [].
Proof. reflexivity. Qed.

(** A pattern that opens with [^] matches nowhere but at the start. *)
Lemma search_Bol_later (rs : list regexp.regex) (s : string) : forall pos,
  regexp.search (regexp.cat_list (regexp.Bol :: rs)) (S pos) s = None.
Proof.
  induction s as [|c s IH]; intros pos; cbn [regexp.search];
    rewrite ends_Bol_later; [reflexivity | apply IH].
Qed.

(** The greedy repetition of a class of bytes. *)
Lemma star_stop (P : ascii -> bool) (n pos : nat) (s : string) :
  match s with String c _ => P c = false | EmptyString => True end ->
  regexp.iter (regexp.one P) true n pos s = [(pos, s)].
Proof.
  destruct n as [|n]; [reflexivity|].
  destruct s as [|c s]; [reflexivity|]. intros H.
  cbn [regexp.iter regexp.one]. rewrite H. reflexivity.
Qed.

Lemma star_step (P : ascii -> bool) (n pos : nat) (c : ascii) (s : string) :
  P c = true ->
  regexp.iter (regexp.one P) true (S n) pos (String c s)
  = (regexp.iter (regexp.one P) true n (S pos) s ++ [(pos, String c s)])%list.
Proof.
  intros H. cbn [regexp.iter regexp.one]. rewrite H. cbn [flat_map fst snd].
  assert (E : Nat.ltb pos (S pos) = true) by (apply Nat.ltb_lt; lia).
  rewrite E. now rewrite app_nil_r.
Qed.

Lemma star_through (P : ascii -> bool) (a : string) : forall (pos : nat) (s : string),
  bytes.all P a = true ->
  exists back,
    regexp.iter (regexp.one P) true (String.length (a ++ s)) pos (a ++ s)
    = (regexp.iter (regexp.one P) true (String.length s) (pos + String.length a) s
       ++ back)%list.
Proof.
  induction a as [|c a IH]; intros pos s H.
  - exists []. rewrite append_nil_l, app_nil_r. cbn [String.length].
    now rewrite Nat.add_0_r.
  - cbn [bytes.all] in H. apply andb_true_iff in H as [Hc Ha].
    destruct (IH (S pos) s Ha) as [back E].
    exists (back ++ [(pos, (String c a ++ s)%string)])%list.
    rewrite append_cons. cbn [String.length].
    rewrite (star_step P _ _ _ _ Hc), E, <- app_assoc.
    replace (pos + S (String.length a)) with (S pos + String.length a) by lia.
    reflexivity.
Qed.

(** The places a repetition reaches lie in the text it was given: a
    continuation that fails wherever the text has a property of all its
    bytes fails at each of them. *)
Lemma iter_fails (P R : ascii -> bool) (B : Type) (f : nat -> string -> list B)
    (n : nat) :
  (forall pos t, bytes.all R t = true -> f pos t = []) ->
  forall (pos : nat) (s : string),
  bytes.all R s = true ->
  flat_map (fun q : regexp.place => f (fst q) (snd q))
           (regexp.iter (regexp.one P) true n pos s) = [].
Proof.
  intros Hf. induction n as [|n IH]; intros pos s H; cbn [regexp.iter].
  - cbn [flat_map fst snd]. now rewrite (Hf pos s H).
  - rewrite flat_map_app. cbn [flat_map fst snd].
    rewrite (Hf pos s H), app_nil_r.
    destruct s as [|c s]; cbn [regexp.one flat_map]; [reflexivity|].
    destruct (P c); cbn [flat_map]; [|reflexivity].
    rewrite app_nil_r. cbn [fst snd].
    destruct (Nat.ltb pos (S pos)); [|reflexivity].
    apply IH. cbn [bytes.all] in H. now apply andb_true_iff in H as [_ H].
Qed.

Lemma iter_nonempty (step : nat -> string -> list regexp.place) (n pos : nat)
    (s : string) :
  regexp.iter step true n pos s <> [].
Proof.
  destruct n; cbn [regexp.iter]; [discriminate|].
  intros E. apply app_eq_nil in E as [_ E]. discriminate E.
Qed.

Lemma class_word (c : ascii) :
  regexp.class_match false [regexp.IPerl false regexp.PWord] c = bytes.is_word c.
Proof.
  unfold regexp.class_match. cbn [existsb regexp.item_match regexp.perl_match xorb].
  now rewrite orb_false_r.
Qed.

Lemma class_space (c : ascii) :
  regexp.class_match false [regexp.IPerl false regexp.PSpace] c = bytes.is_space c.
Proof.
  unfold regexp.class_match. cbn [existsb regexp.item_match regexp.perl_match xorb].
  now rewrite orb_false_r.
Qed.

Lemma all_ext (P Q : ascii -> bool) (s : string) :
  (forall c, P c = Q c) -> bytes.all P s = bytes.all Q s.
Proof.
  intros H. induction s as [|c s IH]; cbn [bytes.all]; [reflexivity|].
  now rewrite H, IH.
Qed.

Lemma value_char_spec (c : ascii) :
  exposition.value_char c = true ->
  bytes.is_space c = false /\ Ascii.eqb c "}" = false.
Proof.
  unfold exposition.value_char. intros H.
  apply andb_true_iff in H as [H1 H2].
  now apply negb_true_iff in H1, H2.
Qed.

Lemma blank_spec (c : ascii) :
  exposition.blank c = true ->
  bytes.is_space c = true /\ regexp.dot_match c = true /\ Ascii.eqb c "}" = false.
Proof.
  unfold exposition.blank. intros H. apply andb_true_iff in H as [H1 H2].
  repeat split; auto.
  destruct (Ascii.eqb_spec c "}") as [->|]; [discriminate H1 | reflexivity].
Qed.

(** After the closing brace: [\s+] takes all the white space and stops
    at the value. *)
Lemma ends_spaces (sp value : string) (rs : list regexp.regex) (pos : nat) :
  sp <> "" -> bytes.all exposition.blank sp = true ->
  match value with
  | String c _ => bytes.is_space c = false
  | EmptyString => True
  end ->
  exists back,
    regexp.ends (regexp.cat_list (regexp.Plus true exposition.space :: rs)) pos
                (sp ++ value)
    = (regexp.ends (regexp.cat_list rs) (pos + String.length sp) value ++ back)%list.
Proof.
  intros Hne Hsp Hv. destruct sp as [|c sp]; [congruence|]. clear Hne.
  cbn [bytes.all] in Hsp. apply andb_true_iff in Hsp as [Hc Hsp].
  apply blank_spec in Hc as (Hc & _ & _).
  assert (Hall : bytes.all
                   (regexp.class_match false [regexp.IPerl false regexp.PSpace]) sp
                 = true).
  { rewrite (all_ext _ bytes.is_space) by apply class_space.
    revert Hsp. apply all_impl. intros x Hx. now apply blank_spec in Hx. }
  destruct (star_through _ sp (S pos) value Hall) as [back E].
  rewrite (star_stop _ (String.length value) (S pos + String.length sp) value) in E.
  2:{ destruct value; [exact I|]. now rewrite class_space. }
  exists (flat_map (fun q : regexp.place =>
                      regexp.ends (regexp.cat_list rs) (fst q) (snd q)) back).
  rewrite ends_cons, append_cons.
  change (regexp.ends (regexp.Plus true exposition.space) pos
            (String c (sp ++ value)))
    with (flat_map
            (fun q : regexp.place =>
               regexp.iter
                 (regexp.one
                    (regexp.class_match false [regexp.IPerl false regexp.PSpace]))
                 true (String.length (snd q)) (fst q) (snd q))
            (regexp.one
               (regexp.class_match false [regexp.IPerl false regexp.PSpace])
               pos (String c (sp ++ value)))).
  cbn [regexp.one]. rewrite class_space, Hc. cbn [flat_map fst snd].
  rewrite app_nil_r, E. cbn [app flat_map fst snd String.length].
  replace (pos + S (String.length sp)) with (S pos + String.length sp) by lia.
  reflexivity.
Qed.

Lemma ends_Lit_none (c : ascii) (rs : list regexp.regex) (pos : nat) (t : string) :
  bytes.all (fun x => negb (Ascii.eqb x c)) t = true ->
  regexp.ends (regexp.cat_list (regexp.Lit c :: rs)) pos t = [].
Proof.
  destruct t as [|d t]; [reflexivity|]. cbn [bytes.all]. intros H.
  apply andb_true_iff in H as [H _]. apply negb_true_iff in H.
  now apply ends_Lit_other.
Qed.

Lemma value_head (value : string) :
  bytes.all exposition.value_char value = true ->
  match value with
  | String c _ => bytes.is_space c = false
  | EmptyString => True
  end.
Proof.
  destruct value as [|c v]; [trivial|]. cbn [bytes.all]. intros H.
  apply andb_true_iff in H as [H _]. now apply value_char_spec in H.
Qed.

(** The first place where [prefix\w*{.*}\s+], followed by the pieces
    [rs], ends on a prefixed sample line is the first place where [rs]
    ends on the value. *)
Lemma ends_sample (p name labels sp value : string) (rs : list regexp.regex) :
  bytes.all bytes.is_word name = true ->
  bytes.all regexp.dot_match labels = true ->
  sp <> "" -> bytes.all exposition.blank sp = true ->
  bytes.all exposition.value_char value = true ->
  exists back,
    regexp.ends
      (regexp.cat_list
         (regexp.Bol :: exposition.literal p ++ exposition.sample_head ++ rs)%list)
      0 (p ++ name ++ "{" ++ labels ++ "}" ++ sp ++ value)
    = (regexp.ends (regexp.cat_list rs)
         (String.length (p ++ name ++ "{" ++ labels ++ "}" ++ sp)) value
       ++ back)%list.
Proof.
  intros Hname Hlabels Hne Hsp Hvalue.
  rewrite ends_Bol, ends_literal. unfold exposition.sample_head. cbn [app].
  (* \w* takes the name *)
  rewrite ends_cons.
  change (regexp.ends (regexp.Star true exposition.word) (0 + String.length p)
            (name ++ "{" ++ labels ++ "}" ++ sp ++ value))
    with (regexp.iter
            (regexp.one (regexp.class_match false [regexp.IPerl false regexp.PWord]))
            true (String.length (name ++ "{" ++ labels ++ "}" ++ sp ++ value))
            (0 + String.length p) (name ++ "{" ++ labels ++ "}" ++ sp ++ value)).
  assert (Hname' : bytes.all
                     (regexp.class_match false [regexp.IPerl false regexp.PWord]) name
                   = true).
  { now rewrite (all_ext _ bytes.is_word) by apply class_word. }
  destruct (star_through _ name (0 + String.length p)
              ("{" ++ labels ++ "}" ++ sp ++ value) Hname') as [back1 E1].
  rewrite E1. clear E1.
  rewrite (star_stop _ _ _ ("{" ++ labels ++ "}" ++ sp ++ value)) by reflexivity.
  rewrite flat_map_app. cbn [flat_map fst snd]. rewrite app_nil_r.
  rewrite append_cons, append_nil_l, ends_Lit.
  (* .* runs to the end of the line and comes back to the last brace *)
  rewrite ends_cons.
  change (regexp.ends (regexp.Star true regexp.Dot)
            (S (0 + String.length p + String.length name))
            (labels ++ "}" ++ sp ++ value))
    with (regexp.iter (regexp.one regexp.dot_match) true
            (String.length (labels ++ "}" ++ sp ++ value))
            (S (0 + String.length p + String.length name))
            (labels ++ "}" ++ sp ++ value)).
  destruct (star_through _ labels (S (0 + String.length p + String.length name))
              ("}" ++ sp ++ value) Hlabels) as [back2 E2].
  rewrite E2. clear E2.
  rewrite append_cons, append_nil_l. cbn [String.length].
  rewrite star_step by reflexivity.
  rewrite !flat_map_app. cbn [flat_map fst snd]. rewrite app_nil_r.
  rewrite (iter_fails _ (fun x => negb (Ascii.eqb x "}"))).
  2:{ intros pos t Ht. now apply ends_Lit_none. }
  2:{ rewrite all_append. apply andb_true_iff. split.
      - revert Hsp. apply all_impl. intros c Hc.
        apply blank_spec in Hc as (_ & _ & Hc). now rewrite Hc.
      - revert Hvalue. apply all_impl. intros c Hc.
        apply value_char_spec in Hc as [_ Hc]. now rewrite Hc. }
  cbn [app]. rewrite ends_Lit.
  (* \s+ takes the white space *)
  destruct (ends_spaces sp value rs
              (S (S (0 + String.length p + String.length name) + String.length labels))
              Hne Hsp (value_head _ Hvalue)) as [back3 E3].
  rewrite E3. clear E3. rewrite <- !app_assoc.
  replace (String.length (p ++ name ++ "{" ++ labels ++ "}" ++ sp))
    with (S (S (0 + String.length p + String.length name) + String.length labels)
          + String.length sp).
  2:{ rewrite !length_append. cbn [String.length]. lia. }
  eexists. reflexivity.
Qed.

(* ===================================================================== *)
(** * Trimming, cutting and scanning *)
(* ===================================================================== *)

Lemma rev_onto_append (a b acc : string) :
  bytes.rev_onto (a ++ b) acc = bytes.rev_onto b (bytes.rev_onto a acc).
Proof.
  revert acc. induction a as [|c a IH]; intros acc; [reflexivity|].
  rewrite append_cons. cbn [bytes.rev_onto]. apply IH.
Qed.

Lemma rev_onto_rev_onto (s : string) : forall acc acc',
  bytes.rev_onto (bytes.rev_onto s acc) acc' = bytes.rev_onto acc (s ++ acc').
Proof.
  induction s as [|c s IH]; intros acc acc'; [reflexivity|].
  cbn [bytes.rev_onto]. rewrite IH. reflexivity.
Qed.

Lemma rev_rev (s : string) : bytes.rev (bytes.rev s) = s.
Proof.
  unfold bytes.rev. rewrite rev_onto_rev_onto. cbn [bytes.rev_onto].
  apply append_nil_r.
Qed.

(** A string that ends with bytes of some kind is, reversed, a string
    that starts with one. *)
Lemma rev_onto_head (Q : ascii -> bool) (v : string) : forall acc,
  v <> "" -> bytes.all Q v = true ->
  exists c r, bytes.rev_onto v acc = String c r /\ Q c = true.
Proof.
  induction v as [|x v IH]; intros acc Hne H; [congruence|].
  cbn [bytes.all] in H. apply andb_true_iff in H as [Hx Hv].
  cbn [bytes.rev_onto]. destruct v as [|y v].
  - exists x, acc. auto.
  - apply IH; [discriminate | exact Hv].
Qed.

Lemma rev_head (Q : ascii -> bool) (a v : string) :
  v <> "" -> bytes.all Q v = true ->
  exists c r, bytes.rev (a ++ v) = String c r /\ Q c = true.
Proof.
  intros Hne H. unfold bytes.rev. rewrite rev_onto_append.
  now apply rev_onto_head.
Qed.

Lemma TrimLeft_head (c cut : ascii) (s : string) :
  Ascii.eqb c cut = false ->
  strings.TrimLeft (String c s) cut = String c s.
Proof. intros H. cbn [strings.TrimLeft]. now rewrite H. Qed.

Lemma not_space (c : ascii) :
  bytes.is_space c = false ->
  Ascii.eqb c " " = false /\ Ascii.eqb c bytes.CR = false
  /\ regexp.dot_match c = true.
Proof.
  intros H. unfold regexp.dot_match.
  destruct (Ascii.eqb_spec c " ") as [->|]; [discriminate H|].
  destruct (Ascii.eqb_spec c bytes.CR) as [->|]; [discriminate H|].
  destruct (Ascii.eqb_spec c bytes.LF) as [->|]; [discriminate H|].
  auto.
Qed.

Lemma word_plain (c : ascii) :
  bytes.is_word c = true ->
  Ascii.eqb c " " = false /\ Ascii.eqb c "#" = false
  /\ regexp.dot_match c = true.
Proof.
  intros H. unfold regexp.dot_match.
  destruct (Ascii.eqb_spec c " ") as [->|]; [discriminate H|].
  destruct (Ascii.eqb_spec c "#") as [->|]; [discriminate H|].
  destruct (Ascii.eqb_spec c bytes.LF) as [->|]; [discriminate H|].
  auto.
Qed.

(** [Trim] leaves a string that neither starts nor ends with the byte
    to cut. *)
Lemma Trim_same (cut c : ascii) (a v : string) :
  Ascii.eqb c cut = false ->
  v <> "" -> bytes.all (fun x => negb (Ascii.eqb x cut)) v = true ->
  strings.Trim (String c a ++ v) cut = String c a ++ v.
Proof.
  intros Hc Hne Hv. unfold strings.Trim. rewrite append_cons.
  rewrite (TrimLeft_head _ _ _ Hc). rewrite <- append_cons.
  unfold strings.TrimRight.
  destruct (rev_head _ (String c a) v Hne Hv) as (x & r & E & Hx).
  rewrite E. apply negb_true_iff in Hx.
  rewrite (TrimLeft_head _ _ _ Hx), <- E. apply rev_rev.
Qed.

Lemma cut_line_whole (s : string) :
  bytes.all regexp.dot_match s = true -> bufio.cut_line s = (s, None).
Proof.
  induction s as [|c s IH]; [reflexivity|]. cbn [bytes.all bufio.cut_line].
  intros H. apply andb_true_iff in H as [Hc Hs].
  unfold regexp.dot_match in Hc. apply negb_true_iff in Hc.
  now rewrite Hc, (IH Hs).
Qed.

(** The scanner gives a short text with no newline and no carriage
    return at its end as its one line. *)
Lemma Lines_one (c : ascii) (a v : string) :
  bytes.all regexp.dot_match (String c a ++ v) = true ->
  v <> "" -> bytes.all (fun x => negb (Ascii.eqb x bytes.CR)) v = true ->
  (N.of_nat (String.length (String c a ++ v)) < bufio.MaxScanTokenSize)%N ->
  bufio.Lines (String c a ++ v) = [String c a ++ v].
Proof.
  intros Hline Hne Hv Hlen. unfold bufio.Lines.
  destruct (rev_head _ (String c a) v Hne Hv) as (x & r & E & Hx).
  apply negb_true_iff in Hx. apply N.leb_gt in Hlen.
  rewrite append_cons in *. cbn [String.length bufio.scan] in *.
  rewrite (cut_line_whole _ Hline). cbv beta iota. cbn [String.length].
  rewrite Hlen. unfold bufio.dropCR. rewrite E, Hx. reflexivity.
Qed.

(* ===================================================================== *)
(** * The rewriting of a sample line *)
(* ===================================================================== *)

Lemma substring_prefix (a b : string) : substring 0 (String.length a) (a ++ b) = a.
Proof.
  induction a as [|c a IH]; [now destruct b|].
  rewrite append_cons. cbn [String.length substring]. now rewrite IH.
Qed.

Lemma skip_prefix (a b : string) : bytes.skip (String.length a) (a ++ b) = b.
Proof.
  induction a as [|c a IH]; [reflexivity|].
  rewrite append_cons. cbn [String.length bytes.skip]. exact IH.
Qed.

Lemma search_first (r : regexp.regex) (pos : nat) (s : string)
    (q : regexp.place) (back : list regexp.place) :
  regexp.ends r pos s = q :: back -> regexp.search r pos s = Some (pos, fst q).
Proof. intros E. destruct s; cbn [regexp.search]; now rewrite E. Qed.

Lemma allMatches_step (fuel : nat) (r : regexp.regex) (text : string) (pos : nat)
    (prevMatchEnd : option nat) :
  regexp.allMatches (S fuel) r text pos prevMatchEnd
  = if Nat.ltb (String.length text) pos then []
    else
      match regexp.search r pos (bytes.skip pos text) with
      | None => []
      | Some (b, e) =>
          if Nat.eqb e pos then
            let pos' := if Nat.ltb pos (String.length text) then S pos
                        else S (String.length text) in
            let rest := regexp.allMatches fuel r text pos' (Some e) in
            match prevMatchEnd with
            | Some p => if Nat.eqb b p then rest else (b, e) :: rest
            | None => (b, e) :: rest
            end
          else (b, e) :: regexp.allMatches fuel r text e (Some e)
      end.
Proof. reflexivity. Qed.

(** A pattern that opens with [^] and first ends after [n > 0] bytes has
    one match in a text: its first [n] bytes. *)
Lemma FindAllString_anchored (rs : list regexp.regex) (m0 rest : string)
    (back : list regexp.place) :
  m0 <> "" ->
  regexp.ends (regexp.cat_list (regexp.Bol :: rs)) 0 (m0 ++ rest)
  = (String.length m0, rest) :: back ->
  regexp.FindAllString (regexp.cat_list (regexp.Bol :: rs)) (m0 ++ rest) = [m0].
Proof.
  intros Hne E. unfold regexp.FindAllString.
  rewrite Nat.add_comm. cbn [Nat.add]. rewrite allMatches_step.
  change (Nat.ltb (String.length (m0 ++ rest)) 0) with false. cbv iota.
  cbn [bytes.skip]. rewrite (search_first _ _ _ _ _ E). cbn [fst].
  destruct m0 as [|c m0]; [congruence|].
  cbn [String.length Nat.eqb]. rewrite allMatches_step.
  assert (L : Nat.ltb (String.length (String c m0 ++ rest))
                      (S (String.length m0)) = false).
  { apply Nat.ltb_ge. rewrite length_append. cbn [String.length]. lia. }
  rewrite L. rewrite search_Bol_later. cbn [List.map fst snd].
  rewrite Nat.sub_0_r.
  change (S (String.length m0)) with (String.length (String c m0)).
  now rewrite substring_prefix.
Qed.

Lemma MatchString_first (r : regexp.regex) (s : string) (q : regexp.place)
    (back : list regexp.place) :
  regexp.ends r 0 s = q :: back -> regexp.MatchString r s = true.
Proof.
  intros E. unfold regexp.MatchString. now rewrite (search_first _ _ _ _ _ E).
Qed.

Lemma ends_sample_value (pos : nat) (s : string) :
  exists q back,
    regexp.ends (regexp.cat_list exposition.sample_value) pos s = q :: back.
Proof.
  unfold exposition.sample_value. rewrite ends_cons.
  destruct (regexp.ends (regexp.Star true _) pos s) as [|q l] eqn:E.
  - exfalso. revert E. apply iter_nonempty.
  - cbn [flat_map fst snd regexp.cat_list fold_right regexp.ends app]. eauto.
Qed.

Lemma Replace_value (value : string) :
  bytes.all exposition.value_char value = true ->
  bytes.all exposition.value_char (strings.Replace value "," ".") = true.
Proof.
  unfold strings.Replace.
  induction value as [|c v IH]; [reflexivity|]. cbn [bytes.all bytes.map].
  intros H. apply andb_true_iff in H as [Hc Hv]. rewrite (IH Hv).
  destruct (Ascii.eqb c ","); [reflexivity | now rewrite Hc].
Qed.

Lemma sample_assoc (p name labels sp value : string) :
  p ++ name ++ "{" ++ labels ++ "}" ++ sp ++ value
  = (p ++ name ++ "{" ++ labels ++ "}" ++ sp) ++ value.
Proof. now rewrite !append_assoc. Qed.

(** The line opens with a byte that is neither a space nor the mark of a
    comment. *)
Lemma sample_opens (name rest : string) :
  bytes.all bytes.is_word name = true ->
  exists c a, name ++ "{" ++ rest = String c a
              /\ Ascii.eqb c " " = false /\ Ascii.eqb c "#" = false.
Proof.
  destruct name as [|c name]; intros H.
  - exists "{"%char, rest. auto.
  - cbn [bytes.all] in H. apply andb_true_iff in H as [Hc _].
    apply word_plain in Hc as (H1 & H2 & _).
    exists c, (name ++ "{" ++ rest). auto.
Qed.

(** What the loop of [metricsHandler] makes of a sample line when the
    prefix is literal: the line with the prefix before it and the commas
    of the value turned into points, whatever the value is. *)
Lemma formatLine_sample (p name labels sp value : string) :
  bytes.all bytes.is_word name = true ->
  bytes.all regexp.dot_match labels = true ->
  sp <> "" -> bytes.all exposition.blank sp = true ->
  value <> "" -> bytes.all exposition.value_char value = true ->
  main.formatLine (regexp.Regexp (exposition.regex1 p))
                  (regexp.Regexp (exposition.regex2 p)) p
                  (name ++ "{" ++ labels ++ "}" ++ sp ++ value)
  = main.Emit (p ++ name ++ "{" ++ labels ++ "}" ++ sp
               ++ strings.Replace value "," "." ++ http.nl).
Proof.
  intros Hname Hlabels Hne Hsp Hv Hvalue. unfold main.formatLine.
  (* the line is trimmed already, it is not empty and no comment *)
  assert (T : strings.Trim (name ++ "{" ++ labels ++ "}" ++ sp ++ value) " "
              = name ++ "{" ++ labels ++ "}" ++ sp ++ value).
  { destruct (sample_opens name (labels ++ "}" ++ sp) Hname) as (c & a & E & Hc & _).
    replace (name ++ "{" ++ labels ++ "}" ++ sp ++ value)
      with ((name ++ "{" ++ labels ++ "}" ++ sp) ++ value)
      by now rewrite !append_assoc.
    rewrite E. apply Trim_same; auto.
    revert Hvalue. apply all_impl. intros x Hx.
    apply value_char_spec in Hx as [Hx _]. apply not_space in Hx as (Hx & _).
    now rewrite Hx. }
  rewrite T. clear T.
  destruct (sample_opens name (labels ++ "}" ++ sp ++ value) Hname)
    as (c & a & E & _ & Hc).
  assert (N1 : String.eqb (name ++ "{" ++ labels ++ "}" ++ sp ++ value) "" = false)
    by now rewrite E.
  assert (N2 : String.eqb (bytes.take 1 (name ++ "{" ++ labels ++ "}" ++ sp ++ value))
                          "#" = false).
  { rewrite E. cbn [bytes.take String.eqb]. now rewrite Hc. }
  rewrite N1, N2. clear N1 N2 E Hc c a.
  (* the first pattern matches once, up to the value *)
  destruct (ends_sample p name labels sp value [] Hname Hlabels Hne Hsp Hvalue)
    as [back1 E1].
  rewrite app_nil_r in E1. cbn [regexp.cat_list fold_right regexp.ends app] in E1.
  rewrite sample_assoc in E1 |- *.
  assert (M0 : p ++ name ++ "{" ++ labels ++ "}" ++ sp <> "").
  { intros E. apply (f_equal String.length) in E.
    rewrite !length_append in E. cbn [String.length] in E. lia. }
  unfold exposition.regex1 at 1.
  rewrite (FindAllString_anchored _ _ _ _ M0 E1).
  rewrite skip_prefix.
  (* the second pattern matches whatever follows *)
  destruct (ends_sample p name labels sp (strings.Replace value "," ".")
              exposition.sample_value Hname Hlabels Hne Hsp (Replace_value _ Hvalue))
    as [back2 E2].
  destruct (ends_sample_value
              (String.length (p ++ name ++ "{" ++ labels ++ "}" ++ sp))
              (strings.Replace value "," ".")) as (q & back3 & E3).
  rewrite E3 in E2. cbn [app] in E2. rewrite sample_assoc in E2.
  unfold exposition.regex2. rewrite (MatchString_first _ _ _ _ E2).
  now rewrite !append_assoc.
Qed.

Lemma Replace_clean (value : string) (old new : ascii) :
  Ascii.eqb new old = false ->
  bytes.all (fun c => negb (Ascii.eqb c old)) (strings.Replace value old new) = true.
Proof.
  intros H. unfold strings.Replace.
  induction value as [|c v IH]; [reflexivity|]. cbn [bytes.map bytes.all].
  rewrite IH, andb_true_r. destruct (Ascii.eqb c old) eqn:E; now rewrite ?H, ?E.
Qed.

Lemma sample_line_plain (name labels sp value : string) :
  bytes.all bytes.is_word name = true ->
  bytes.all regexp.dot_match labels = true ->
  bytes.all exposition.blank sp = true ->
  bytes.all exposition.value_char value = true ->
  bytes.all regexp.dot_match ((name ++ "{" ++ labels ++ "}" ++ sp) ++ value) = true.
Proof.
  intros Hname Hlabels Hsp Hvalue.
  rewrite !all_append, Hlabels. cbn [bytes.all].
  rewrite (all_impl bytes.is_word regexp.dot_match name),
          (all_impl exposition.blank regexp.dot_match sp),
          (all_impl exposition.value_char regexp.dot_match value); auto.
  - intros c Hc. apply value_char_spec in Hc as [Hc _]. now apply not_space in Hc.
  - intros c Hc. now apply blank_spec in Hc.
  - intros c Hc. now apply word_plain in Hc.
Qed.

(** The "Format output" part of [metricsHandler] on an output of one
    sample line, for a literal prefix. *)
Lemma formatOutput_sample (p name labels sp value : string) :
  bytes.all bytes.is_word p = true ->
  bytes.all bytes.is_word name = true ->
  bytes.all regexp.dot_match labels = true ->
  sp <> "" -> bytes.all exposition.blank sp = true ->
  value <> "" -> bytes.all exposition.value_char value = true ->
  (N.of_nat (String.length (name ++ "{" ++ labels ++ "}" ++ sp ++ value))
   < bufio.MaxScanTokenSize)%N ->
  main.formatOutput p (name ++ "{" ++ labels ++ "}" ++ sp ++ value)
  = inl (p ++ name ++ "{" ++ labels ++ "}" ++ sp
         ++ strings.Replace value "," "." ++ http.nl).
Proof.
  intros Hp Hname Hlabels Hne Hsp Hv Hvalue Hlen. unfold main.formatOutput.
  rewrite (Compile_regex1 p Hp), (Compile_regex2 p Hp).
  assert (L : bufio.Lines (name ++ "{" ++ labels ++ "}" ++ sp ++ value)
              = [name ++ "{" ++ labels ++ "}" ++ sp ++ value]).
  { destruct (sample_opens name (labels ++ "}" ++ sp) Hname) as (c & a & E & _).
    revert Hlen.
    replace (name ++ "{" ++ labels ++ "}" ++ sp ++ value)
      with ((name ++ "{" ++ labels ++ "}" ++ sp) ++ value)
      by now rewrite !append_assoc.
    pose proof (sample_line_plain name labels sp value Hname Hlabels Hsp Hvalue)
      as Hplain.
    rewrite E in *. intros Hlen. apply Lines_one; auto.
    revert Hvalue. apply all_impl. intros x Hx.
    apply value_char_spec in Hx as [Hx _]. apply not_space in Hx as (_ & Hx & _).
    now rewrite Hx. }
  rewrite L. cbn [main.formatLines].
  rewrite formatLine_sample by assumption. now rewrite append_nil_l.
Qed.

(** C2, as the code has it: for a prefix of word bytes (letters, digits,
    underscores: the bytes that stand for themselves in a pattern) and an
    output of one line [name{labels} value], the rewritten output is the
    line with the prefix before it, the rest unchanged but for the commas
    of the value, each of which is a point in the output. *)
Theorem literal_prefix_is_prepended (p name labels sp value : string) :
  bytes.all bytes.is_word p = true ->
  bytes.all bytes.is_word name = true ->
  bytes.all regexp.dot_match labels = true ->
  sp <> "" -> bytes.all exposition.blank sp = true ->
  value <> "" -> bytes.all exposition.value_char value = true ->
  (N.of_nat (String.length (name ++ "{" ++ labels ++ "}" ++ sp ++ value))
   < bufio.MaxScanTokenSize)%N ->
  main.formatOutput p (name ++ "{" ++ labels ++ "}" ++ sp ++ value)
  = inl (p ++ name ++ "{" ++ labels ++ "}" ++ sp
         ++ strings.Replace value "," "." ++ http.nl)
  /\ bytes.all (fun c => negb (Ascii.eqb c ","))
               (strings.Replace value "," ".") = true.
Proof.
  intros. split; [now apply formatOutput_sample | now apply Replace_clean].
Qed.

Lemma literal_prefix_witness :
  let labels := "l=" ++ jwt.q ++ "v" ++ jwt.q in
  main.formatOutput "net_" ("up" ++ "{" ++ labels ++ "}" ++ " " ++ "123,45")
  = inl ("net_" ++ "up" ++ "{" ++ labels ++ "}" ++ " "
         ++ strings.Replace "123,45" "," "." ++ http.nl)
  /\ bytes.all (fun c => negb (Ascii.eqb c ","))
               (strings.Replace "123,45" "," ".") = true.
Proof.
  apply (literal_prefix_is_prepended "net_" "up"
           ("l=" ++ jwt.q ++ "v" ++ jwt.q) " " "123,45");
    solve [reflexivity | discriminate].
Defined.

(** C2, as the spec words it, fails: the prefix [a+] (with the underscore
    the handler puts after it) is no literal pattern, the prefixed line
    does not match it, and the well-formed line is left out of the
    output. *)
Lemma prefix_with_operator_drops_line :
  main.formatOutput "a+_" ("up{l=" ++ jwt.q ++ "v" ++ jwt.q ++ "} 123.45") = inl "".
Proof. vm_compute. reflexivity. Qed.

(** C1 fails in the code: the second pattern is the first one followed by
    [[0-9|\.]*], which matches the empty string, so the check never
    refuses a value.  The line [x{} abc] of a script is sent on. *)
Theorem nonnumeric_value_is_sent :
  main.formatOutput "" "x{} abc" = inl ("x{} abc" ++ http.nl)
  /\ http.Body
       (main.writer
          (fst (main.probe (sample.env sample.open_cfg "x{} abc" true)
                           (sample.request [("script", "ping")] "" None)
                           main.start)))
     = main.synthetic "1" sample.half_second ++ "x{} abc" ++ http.nl ++ http.nl.
Proof. vm_compute. split; reflexivity. Qed.

(** C3 fails in the code: with the prefix [(] neither pattern compiles,
    [regexp.Compile] returns [nil] beside the error that is dropped, and
    the first sample line of the output makes the handler panic. *)
Theorem open_group_prefix_panics :
  regexp.Compile ("^" ++ "(_" ++ "\w*{.*}\s+") = regexp.Nil
  /\ snd (main.probe (sample.env sample.open_cfg "up{} 1" true)
                     (sample.request [("script", "ping"); ("prefix", "(")] "" None)
                     main.start)
     = main.Panicked.
Proof. vm_compute. split; reflexivity. Qed.

(* ===================================================================== *)
(** * What a probe does to the per-script metrics *)
(* ===================================================================== *)

Lemma metricsHandler_metrics (env : main.Env) (r : http.Request) (wd : main.World) :
  main.metrics (fst (main.metricsHandler env r wd)) = main.metrics wd.
Proof.
  unfold main.metricsHandler.
  destruct (String.eqb (http.Get (http.Query r) "script") ""); [reflexivity|].
  cbv zeta.
  destruct (String.eqb (config.GetScript _ _) ""); [reflexivity|].
  destruct (main.runScript env _) as [[o []]|]; try reflexivity.
  destruct (String.eqb (http.Get (http.Query r) "output") "ignore"); [reflexivity|].
  destruct (main.formatOutput _ o); reflexivity.
Qed.

Lemma challenge_metrics (env : main.Env) (wd : main.World) :
  main.metrics (policy.challenge env wd) = main.metrics wd.
Proof. unfold policy.challenge. now destruct (config.BasicAuth_Active _). Qed.

Lemma challenge_started (env : main.Env) (wd : main.World) :
  main.started (policy.challenge env wd) = main.started wd.
Proof. unfold policy.challenge. now destruct (config.BasicAuth_Active _). Qed.

(** The handler inside [instrumentScript]: [use(metricsHandler, auth)]. *)
Lemma use_auth (env : main.Env) :
  main.use (main.metricsHandler env) [main.auth env]
  = main.auth env (main.metricsHandler env).
Proof. reflexivity. Qed.

Lemma guarded_metrics (env : main.Env) (r : http.Request) (wd : main.World) :
  main.metrics (fst (main.auth env (main.metricsHandler env) r wd))
  = main.metrics wd.
Proof.
  rewrite auth_allowed. destruct (policy.allowed env r).
  - now rewrite metricsHandler_metrics, challenge_metrics.
  - cbn. apply challenge_metrics.
Qed.

Lemma probe_named (env : main.Env) (r : http.Request) (wd : main.World) :
  http.Get (http.Query r) "script" <> "" ->
  main.metrics (fst (main.probe env r wd))
  = main.inflight_Dec (http.Get (http.Query r) "script")
      (match snd (main.probe env r wd) with
       | main.Returned =>
           main.observe_and_count (http.Get (http.Query r) "script")
             (main.requestSeconds env)
             (main.inflight_Inc (http.Get (http.Query r) "script") (main.metrics wd))
       | _ => main.inflight_Inc (http.Get (http.Query r) "script") (main.metrics wd)
       end).
Proof.
  intros H. unfold main.probe. rewrite use_auth.
  rewrite (instrumentScript_named _ _ _ _ H). cbv zeta. cbn [fst snd].
  pose proof (guarded_metrics env r
                (main.with_metrics
                   (main.inflight_Inc (http.Get (http.Query r) "script")) wd)) as G.
  destruct (snd (main.auth env (main.metricsHandler env) r _));
    cbn [main.with_metrics main.metrics]; now rewrite G.
Qed.

Lemma probe_unnamed (env : main.Env) (r : http.Request) (wd : main.World) :
  http.Get (http.Query r) "script" = "" ->
  main.probe env r wd = main.auth env (main.metricsHandler env) r wd.
Proof.
  intros H. unfold main.probe, main.instrumentScript. now rewrite H.
Qed.

(** X1: every request to [/probe] leaves every in-flight gauge at the
    value it had, however the request ends: denied, rejected, answered,
    or with a panic of the handler. *)
Theorem probe_keeps_inflight (env : main.Env) (r : http.Request) (wd : main.World)
    (sn : string) :
  policy.inflight sn (fst (main.probe env r wd)) = policy.inflight sn wd.
Proof.
  unfold policy.inflight.
  destruct (String.eqb_spec (http.Get (http.Query r) "script") "") as [E|E].
  - now rewrite (probe_unnamed _ _ _ E), guarded_metrics.
  - rewrite (probe_named _ _ _ E).
    set (name := http.Get (http.Query r) "script").
    assert (H : prometheus.value
                  (prometheus.Dec name
                     (prometheus.Inc name (main.requests_inflight (main.metrics wd)))) sn
                = prometheus.value (main.requests_inflight (main.metrics wd)) sn).
    { destruct (String.eqb_spec name sn) as [->|N].
      - rewrite value_Dec, value_Inc. lia.
      - now rewrite value_Dec_other, value_Inc_other. }
    destruct (snd (main.probe env r wd)); exact H.
Qed.

Lemma observed_Observe (sn : string) (x : fmt.float64)
    (v : gmap string (list fmt.float64)) :
  default [] (prometheus.Observe sn x v !! sn) = (default [] (v !! sn) ++ [x])%list.
Proof. unfold prometheus.Observe. now rewrite lookup_insert_eq. Qed.

Lemma observed_Observe_other (sn other : string) (x : fmt.float64)
    (v : gmap string (list fmt.float64)) :
  sn <> other ->
  default [] (prometheus.Observe sn x v !! other) = default [] (v !! other).
Proof. intros H. unfold prometheus.Observe. now rewrite lookup_insert_ne. Qed.

(** X2: a request that names a script and whose handler returns, be it
    with a refusal, adds one to the script's request counter and one
    observation, the duration of the request, to its summary; the
    counters and summaries of the other scripts stay as they are. *)
Theorem returned_probe_is_counted (env : main.Env) (r : http.Request)
    (wd : main.World) (sn : string) :
  http.Get (http.Query r) "script" = sn -> sn <> "" ->
  snd (main.probe env r wd) = main.Returned ->
  policy.total sn (fst (main.probe env r wd)) = (policy.total sn wd + 1)%Z
  /\ policy.observed sn (fst (main.probe env r wd))
     = (policy.observed sn wd ++ [main.requestSeconds env])%list
  /\ (forall other, sn <> other ->
        policy.total other (fst (main.probe env r wd)) = policy.total other wd
        /\ policy.observed other (fst (main.probe env r wd))
           = policy.observed other wd).
Proof.
  intros Hsn Hne Hret. rewrite <- Hsn in Hne.
  unfold policy.total, policy.observed.
  rewrite (probe_named _ _ _ Hne), Hret, Hsn. cbn.
  split; [apply value_Inc|]. split; [apply observed_Observe|].
  intros other Ho. split; [now apply value_Inc_other | now apply observed_Observe_other].
Qed.

Lemma returned_probe_witness :
  let env := sample.env (sample.cfg true false "") "up{} 1" true in
  let r := sample.request [("script", "ping")] "" None in
  policy.total "ping" (fst (main.probe env r main.start))
  = (policy.total "ping" main.start + 1)%Z
  /\ policy.observed "ping" (fst (main.probe env r main.start))
     = (policy.observed "ping" main.start ++ [main.requestSeconds env])%list
  /\ (forall other, "ping" <> other ->
        policy.total other (fst (main.probe env r main.start))
        = policy.total other main.start
        /\ policy.observed other (fst (main.probe env r main.start))
           = policy.observed other main.start).
Proof.
  apply (returned_probe_is_counted
           (sample.env (sample.cfg true false "") "up{} 1" true)
           (sample.request [("script", "ping")] "" None) main.start "ping").
  - vm_compute. reflexivity.
  - discriminate.
  - vm_compute. reflexivity.
Defined.

(** X3: a request whose handler panics is not counted: the deferred
    decrement runs, the observation and the counter increment after the
    call are skipped, and the counters and summaries stay as they are. *)
Theorem panicking_probe_is_not_counted (env : main.Env) (r : http.Request)
    (wd : main.World) (sn : string) :
  snd (main.probe env r wd) = main.Panicked ->
  policy.total sn (fst (main.probe env r wd)) = policy.total sn wd
  /\ policy.observed sn (fst (main.probe env r wd)) = policy.observed sn wd.
Proof.
  intros Hp. unfold policy.total, policy.observed.
  destruct (String.eqb_spec (http.Get (http.Query r) "script") "") as [E|E].
  - now rewrite (probe_unnamed _ _ _ E), guarded_metrics.
  - now rewrite (probe_named _ _ _ E), Hp.
Qed.

Lemma panicking_probe_witness :
  let env := sample.env sample.open_cfg "up{} 1" true in
  let r := sample.request [("script", "ping"); ("prefix", "(")] "" None in
  policy.total "ping" (fst (main.probe env r main.start))
  = policy.total "ping" main.start
  /\ policy.observed "ping" (fst (main.probe env r main.start))
     = policy.observed "ping" main.start.
Proof.
  apply (panicking_probe_is_not_counted
           (sample.env sample.open_cfg "up{} 1" true)
           (sample.request [("script", "ping"); ("prefix", "(")] "" None)
           main.start "ping").
  vm_compute. reflexivity.
Defined.

(** X4: a request the gate refuses starts no process, and the probe
    returns with the refusal. *)
Theorem refused_probe_runs_nothing (env : main.Env) (r : http.Request)
    (wd : main.World) :
  policy.denied env r ->
  main.started (fst (main.probe env r wd)) = main.started wd
  /\ snd (main.probe env r wd) = main.Returned
  /\ main.writer (fst (main.probe env r wd))
     = main.writer (fst (main.deny (policy.challenge env wd))).
Proof.
  intros D. apply denied_not_allowed in D.
  assert (G : forall wd', main.auth env (main.metricsHandler env) r wd'
                          = main.deny (policy.challenge env wd')).
  { intros wd'. now rewrite auth_allowed, D. }
  destruct (String.eqb_spec (http.Get (http.Query r) "script") "") as [E|E].
  - rewrite (probe_unnamed _ _ _ E), G. cbn. rewrite challenge_started.
    repeat split.
  - unfold main.probe. rewrite use_auth, (instrumentScript_named _ _ _ _ E).
    cbv zeta. rewrite G. cbn. rewrite challenge_started.
    unfold policy.challenge. destruct (config.BasicAuth_Active _); repeat split.
Qed.

Lemma refused_probe_witness :
  let env := sample.env (sample.cfg true false "") "up{} 1" true in
  let r := sample.request [("script", "ping")] "" None in
  main.started (fst (main.probe env r main.start)) = main.started main.start
  /\ snd (main.probe env r main.start) = main.Returned
  /\ main.writer (fst (main.probe env r main.start))
     = main.writer (fst (main.deny (policy.challenge env main.start))).
Proof.
  apply (refused_probe_runs_nothing
           (sample.env (sample.cfg true false "") "up{} 1" true)
           (sample.request [("script", "ping")] "" None) main.start).
  apply policy.missing_credentials; reflexivity.
Defined.

(* ===================================================================== *)
(** * More on the gate *)
(* ===================================================================== *)

Lemma not_allowed_denied (env : main.Env) (r : http.Request) :
  policy.allowed env r = false -> policy.denied env r.
Proof.
  unfold policy.allowed. intros H. apply andb_false_iff in H as [H|H].
  - destruct (config.BasicAuth_Active _) eqn:A; [|discriminate H].
    cbn [implb] in H. unfold policy.basic_ok in H.
    destruct (http.BasicAuth r) as [[u p]|] eqn:B.
    + apply andb_false_iff in H as [H|H]; apply String.eqb_neq in H.
      * exact (policy.wrong_username env r u p A B H).
      * exact (policy.wrong_password env r u p A B H).
    + exact (policy.missing_credentials env r A B).
  - destruct (config.BearerAuth_Active _) eqn:A; [|discriminate H].
    cbn [implb] in H. unfold policy.bearer_ok in H.
    destruct (strings.Split _ " ") as [|s [|t [|x l]]] eqn:S;
      try (apply (policy.malformed_header env r A); rewrite S; cbn; lia).
    apply andb_false_iff in H as [H|H].
    + apply String.eqb_neq in H. exact (policy.wrong_scheme env r s t A S H).
    + destruct (main.checkJWT env t) as [e|] eqn:C; [|discriminate H].
      exact (policy.invalid_token env r s t e A S C).
Qed.

(** X5: the seven checks are all there is to the gate: a request either
    reaches the inner handler, in the world with the Basic challenge set,
    or it fails one of them. *)
Theorem gate_is_complete (env : main.Env) (h : main.HandlerFunc) (r : http.Request)
    (wd : main.World) :
  main.auth env h r wd = h r (policy.challenge env wd) \/ policy.denied env r.
Proof.
  rewrite auth_allowed. destruct (policy.allowed env r) eqn:A.
  - now left.
  - right. now apply not_allowed_denied.
Qed.

Lemma encode_char_no_space (s : base64.sextet) :
  Ascii.eqb (base64.encode_char s) " " = false.
Proof. destruct s as [[[[[[] []] []] []] []] []]; reflexivity. Qed.

Lemma Encode_avoids (x : ascii) (y : string) :
  (forall s, Ascii.eqb (base64.encode_char s) x = false) ->
  bytes.all (fun c => negb (Ascii.eqb c x)) (base64.Encode y) = true.
Proof.
  intros H. induction y as [| a | a b | a b c s IH] using string_ind3.
  - reflexivity.
  - cbn [base64.Encode]. destruct (base64.split3 _ _ _) as [[[s0 s1] s2] s3].
    cbn [bytes.all]. now rewrite !H.
  - cbn [base64.Encode]. destruct (base64.split3 _ _ _) as [[[s0 s1] s2] s3].
    cbn [bytes.all]. now rewrite !H.
  - rewrite Encode_three. destruct (base64.split3 _ _ _) as [[[s0 s1] s2] s3].
    cbn [bytes.all]. now rewrite !H, IH.
Qed.

Lemma SignedString_no_space (key : string) :
  bytes.all (fun c => negb (Ascii.eqb c " ")) (jwt.SignedString key) = true.
Proof.
  unfold jwt.SignedString, jwt.SigningString, jwt.Sign, jwt.EncodeSegment.
  rewrite !all_append, !(Encode_avoids " ") by apply encode_char_no_space.
  reflexivity.
Qed.

Lemma lower_space (c : ascii) :
  Ascii.eqb (strings.lower c) " " = false -> Ascii.eqb c " " = false.
Proof.
  destruct (Ascii.eqb_spec c " ") as [->|]; [|reflexivity].
  intros H. exact H.
Qed.

Lemma ToLower_no_space (s : string) :
  bytes.all (fun c => negb (Ascii.eqb c " ")) (strings.ToLower s) = true ->
  bytes.all (fun c => negb (Ascii.eqb c " ")) s = true.
Proof.
  unfold strings.ToLower.
  induction s as [|c s IH]; [reflexivity|]. cbn [bytes.map bytes.all].
  intros H. apply andb_true_iff in H as [Hc Hs]. apply negb_true_iff in Hc.
  now rewrite (lower_space c Hc), (IH Hs).
Qed.

Lemma checkJWT_createJWT (env : main.Env) :
  jwt.header_alg (main.json env) jwt.header_HS256 = Some (Some "HS256") ->
  jwt.claims_valid (main.json env) jwt.no_claims = Some true ->
  main.checkJWT env (fst (main.createJWT env)) = None.
Proof.
  intros Hh Hc. unfold main.checkJWT, main.createJWT. cbn [fst].
  rewrite (Parse_SignedString _ _ _ _ Hh Hc eq_refl).
  now rewrite String.eqb_refl.
Qed.

(** X6: the token that [createJWT] prints opens the gate: with Bearer
    authentication alone, a request whose [Authorization] header is the
    word [bearer] in any mix of cases, one space and that token reaches
    the inner handler in an unchanged world. *)
Theorem issued_token_opens_gate (env : main.Env) (h : main.HandlerFunc)
    (r : http.Request) (wd : main.World) (scheme : string) :
  config.BasicAuth_Active (main.exporterConfig env) = false ->
  config.BearerAuth_Active (main.exporterConfig env) = true ->
  jwt.header_alg (main.json env) jwt.header_HS256 = Some (Some "HS256") ->
  jwt.claims_valid (main.json env) jwt.no_claims = Some true ->
  strings.ToLower scheme = "bearer" ->
  http.Get (http.Header r) "Authorization"
  = scheme ++ " " ++ fst (main.createJWT env) ->
  main.auth env h r wd = h r wd.
Proof.
  intros Hbasic Hbearer Hh Hc Hscheme Hheader. rewrite auth_allowed.
  unfold policy.allowed, policy.challenge, policy.bearer_ok.
  rewrite Hbasic, Hbearer, Hheader. cbn [implb andb].
  rewrite append_cons, append_nil_l.
  rewrite Split_at.
  2:{ apply ToLower_no_space. now rewrite Hscheme. }
  rewrite Split_none by apply SignedString_no_space.
  rewrite Hscheme, String.eqb_refl.
  now rewrite (checkJWT_createJWT env Hh Hc).
Qed.

Lemma issued_token_witness :
  let env := sample.env (sample.cfg false true "secret") "up{} 1" true in
  let r := sample.request [("script", "ping")]
             ("BeArEr " ++ fst (main.createJWT env)) None in
  main.auth env (main.metricsHandler env) r main.start
  = main.metricsHandler env r main.start.
Proof.
  apply (issued_token_opens_gate
           (sample.env (sample.cfg false true "secret") "up{} 1" true)
           (main.metricsHandler
              (sample.env (sample.cfg false true "secret") "up{} 1" true))
           (sample.request [("script", "ping")]
              ("BeArEr "
               ++ fst (main.createJWT
                         (sample.env (sample.cfg false true "secret") "up{} 1" true)))
              None)
           main.start "BeArEr"); reflexivity.
Defined.

Lemma Split_length (sep : ascii) (s : string) :
  List.length (strings.Split s sep) = S (text.count sep s).
Proof.
  induction s as [|c s IH]; [reflexivity|]. cbn [strings.Split text.count].
  destruct (Ascii.eqb c sep); cbn [List.length Nat.add]; [now rewrite IH|].
  destruct (strings.Split s sep) as [|piece rest] eqn:E.
  - now apply Split_nonempty in E.
  - exact IH.
Qed.

(** X7: with Bearer authentication active, a request whose
    [Authorization] header does not hold exactly one space is refused,
    whatever else it holds. *)
Theorem header_needs_one_space (env : main.Env) (h : main.HandlerFunc)
    (r : http.Request) (wd : main.World) :
  config.BearerAuth_Active (main.exporterConfig env) = true ->
  text.count " " (http.Get (http.Header r) "Authorization") <> 1 ->
  main.auth env h r wd = main.deny (policy.challenge env wd).
Proof.
  intros Hbearer Hcount. rewrite auth_allowed.
  rewrite (denied_not_allowed env r); [reflexivity|].
  apply policy.malformed_header; [exact Hbearer|].
  rewrite Split_length. lia.
Qed.

Lemma header_space_witness :
  let env := sample.env (sample.cfg false true "secret") "up{} 1" true in
  let r := sample.request [("script", "ping")]
             ("Bearer  " ++ fst (main.createJWT env)) None in
  main.auth env (main.metricsHandler env) r main.start
  = main.deny (policy.challenge env main.start).
Proof.
  apply (header_needs_one_space
           (sample.env (sample.cfg false true "secret") "up{} 1" true)).
  - reflexivity.
  - vm_compute. discriminate.
Defined.

Lemma length_zeros (n : nat) : String.length (hmac.zeros n) = n.
Proof. induction n as [|n IH]; cbn [hmac.zeros String.length]; auto. Qed.

Lemma zeros_add (n m : nat) : hmac.zeros n ++ hmac.zeros m = hmac.zeros (n + m).
Proof.
  induction n as [|n IH]; [reflexivity|].
  cbn [hmac.zeros Nat.add]. now rewrite append_cons, IH.
Qed.

(** HMAC reads a short key as the key filled up with zero bytes, so it
    does not tell a key from the key with zero bytes after it. *)
Lemma block_key_zeros (P : sha2.params) (key : string) (n : nat) :
  String.length key + n <= sha2.block_bytes P ->
  hmac.block_key P (key ++ hmac.zeros n) = hmac.block_key P key.
Proof.
  intros H. unfold hmac.block_key.
  assert (L1 : Nat.ltb (sha2.block_bytes P) (String.length (key ++ hmac.zeros n))
               = false).
  { apply Nat.ltb_ge. rewrite length_append, length_zeros. exact H. }
  assert (L2 : Nat.ltb (sha2.block_bytes P) (String.length key) = false).
  { apply Nat.ltb_ge. lia. }
  rewrite L1, L2. rewrite append_assoc, zeros_add, length_append, length_zeros.
  do 2 f_equal. lia.
Qed.

(** X8: [checkJWT] accepts a token made with another secret whenever the
    two secrets differ by zero bytes at the end and are not longer than
    the 64-byte block of SHA-256. *)
Theorem zero_padded_secret_is_accepted (issuer checker : main.Env) (n : nat) :
  jwt.header_alg (main.json checker) jwt.header_HS256 = Some (Some "HS256") ->
  jwt.claims_valid (main.json checker) jwt.no_claims = Some true ->
  config.BearerAuth_SigningKey (main.exporterConfig checker)
  = config.BearerAuth_SigningKey (main.exporterConfig issuer) ++ hmac.zeros n ->
  String.length (config.BearerAuth_SigningKey (main.exporterConfig issuer)) + n <= 64 ->
  main.checkJWT checker (fst (main.createJWT issuer)) = None.
Proof.
  intros Hh Hc Hkey Hlen. unfold main.checkJWT, main.createJWT. cbn [fst].
  rewrite (Parse_SignedString _ _ _ _ Hh Hc eq_refl), Hkey.
  unfold hmac.Sum. rewrite block_key_zeros by exact Hlen.
  now rewrite String.eqb_refl.
Qed.

Lemma zero_padded_secret_witness :
  main.checkJWT
    (sample.env (sample.cfg false true ("secret" ++ hmac.zeros 3)) "up{} 1" true)
    (fst (main.createJWT
            (sample.env (sample.cfg false true "secret") "up{} 1" true)))
  = None.
Proof.
  apply (zero_padded_secret_is_accepted
           (sample.env (sample.cfg false true "secret") "up{} 1" true)
           (sample.env (sample.cfg false true ("secret" ++ hmac.zeros 3))
                       "up{} 1" true) 3).
  - reflexivity.
  - reflexivity.
  - reflexivity.
  - vm_compute. lia.
Defined.

(* ===================================================================== *)
(** * More on the handler *)
(* ===================================================================== *)

(** X9: a request with no [script] parameter is answered with status 400
    and the body "Script parameter is missing"; no process is started,
    and [instrumentScript] leaves the per-script metrics alone. *)
Theorem missing_script_is_rejected (env : main.Env) (r : http.Request)
    (wd : main.World) :
  http.Get (http.Query r) "script" = "" ->
  http.Status (main.writer wd) = None ->
  snd (main.metricsHandler env r wd) = main.Returned
  /\ http.status (main.writer (fst (main.metricsHandler env r wd)))
     = http.StatusBadRequest
  /\ http.Body (main.writer (fst (main.metricsHandler env r wd)))
     = http.Body (main.writer wd) ++ "Script parameter is missing" ++ http.nl
  /\ main.started (fst (main.metricsHandler env r wd)) = main.started wd
  /\ main.metrics (fst (main.probe env r wd)) = main.metrics wd.
Proof.
  intros Hname Hfresh. rewrite (probe_unnamed _ _ _ Hname), guarded_metrics.
  unfold main.metricsHandler. rewrite Hname. cbn.
  unfold http.status. cbn. rewrite Hfresh. auto.
Qed.

Lemma missing_script_witness :
  let env := sample.env sample.open_cfg "up{} 1" true in
  let r := sample.request [("prefix", "net")] "" None in
  snd (main.metricsHandler env r main.start) = main.Returned
  /\ http.status (main.writer (fst (main.metricsHandler env r main.start)))
     = http.StatusBadRequest
  /\ http.Body (main.writer (fst (main.metricsHandler env r main.start)))
     = http.Body (main.writer main.start) ++ "Script parameter is missing" ++ http.nl
  /\ main.started (fst (main.metricsHandler env r main.start))
     = main.started main.start
  /\ main.metrics (fst (main.probe env r main.start)) = main.metrics main.start.
Proof.
  apply (missing_script_is_rejected
           (sample.env sample.open_cfg "up{} 1" true)
           (sample.request [("prefix", "net")] "" None) main.start);
    reflexivity.
Defined.

(** X10: the command line of a request opens with the words of the
    registered script, as they are: what the request brings is put after
    them, so the program that runs is the registered one, and there is
    always a program to run ([args[0]] does not panic). *)
Theorem command_line_is_fixed (env : main.Env) (r : http.Request) :
  let words := strings.Split
                 (config.GetScript (main.exporterConfig env)
                    (http.Get (http.Query r) "script")) " " in
  firstn (List.length words) (main.arguments env r) = words
  /\ hd "" (main.arguments env r) = hd "" words
  /\ main.runScript env (main.arguments env r) <> None.
Proof.
  cbv zeta. split; [|split].
  - unfold main.arguments. cbv zeta.
    rewrite firstn_app, Nat.sub_diag, firstn_all. cbn [firstn]. apply app_nil_r.
  - unfold main.arguments. cbv zeta.
    destruct (strings.Split _ " ") as [|a l] eqn:E; [|reflexivity].
    now apply Split_nonempty in E.
  - rewrite runScript_arguments. cbv zeta.
    destruct (snd (main.Output env _ _)); discriminate.
Qed.

(** X11: [use] wraps the handler in the middleware from first to last: the
    last one is the outermost. *)
Theorem use_wraps_in_order (h : main.HandlerFunc)
    (middleware : list (main.HandlerFunc -> main.HandlerFunc))
    (m : main.HandlerFunc -> main.HandlerFunc) :
  main.use h (middleware ++ [m]) = m (main.use h middleware).
Proof. unfold main.use. now rewrite fold_left_app. Qed.

(* ===================================================================== *)
(** * More on the rewriting of the output *)
(* ===================================================================== *)

Lemma formatLine_remark (regex1 regex2 : regexp.compiled) (prefix line : string) :
  text.remark line = true ->
  match main.formatLine regex1 regex2 prefix line with
  | main.Emit s => s = text.kept line
  | main.Skip => text.kept line = ""
  | _ => False
  end.
Proof.
  unfold text.remark, text.kept, main.formatLine. cbv zeta.
  destruct (String.eqb (strings.Trim line " ") ""); [reflexivity|].
  cbn [orb]. now intros ->.
Qed.

Lemma formatLines_remarks (regex1 regex2 : regexp.compiled) (prefix : string)
    (lines : list string) : forall formatedOutput,
  forallb text.remark lines = true ->
  main.formatLines regex1 regex2 prefix lines formatedOutput
  = inl (formatedOutput ++ bytes.join (List.map text.kept lines)).
Proof.
  induction lines as [|line lines IH]; intros acc H.
  - cbn. now rewrite append_nil_r.
  - cbn [forallb] in H. apply andb_true_iff in H as [Hl Hr].
    cbn [main.formatLines List.map bytes.join].
    pose proof (formatLine_remark regex1 regex2 prefix line Hl) as F.
    destruct (main.formatLine regex1 regex2 prefix line) as [s| | |];
      try contradiction.
    + rewrite (IH _ Hr), F. now rewrite append_assoc.
    + rewrite (IH _ Hr), F. reflexivity.
Qed.

(** X12: blank lines and comments are not matched against the patterns:
    an output of nothing else is rewritten into its comments, trimmed and
    without a prefix, for every prefix, also one whose patterns do not
    compile. *)
Theorem remarks_need_no_pattern (prefix output : string) :
  forallb text.remark (bufio.Lines output) = true ->
  main.formatOutput prefix output
  = inl (bytes.join (List.map text.kept (bufio.Lines output))).
Proof.
  intros H. unfold main.formatOutput. now rewrite formatLines_remarks.
Qed.

Lemma remarks_witness :
  main.formatOutput "(_" ("  # HELP up" ++ http.nl ++ http.nl ++ "# TYPE up gauge")
  = inl (bytes.join
           (List.map text.kept
              (bufio.Lines ("  # HELP up" ++ http.nl ++ http.nl ++ "# TYPE up gauge")))).
Proof.
  apply (remarks_need_no_pattern "(_"
           ("  # HELP up" ++ http.nl ++ http.nl ++ "# TYPE up gauge")).
  reflexivity.
Defined.

Lemma formatLines_compiled (re1 re2 : regexp.regex) (prefix : string)
    (lines : list string) : forall formatedOutput,
  exists out,
    main.formatLines (regexp.Regexp re1) (regexp.Regexp re2) prefix lines
                     formatedOutput = inl out.
Proof.
  induction lines as [|line lines IH]; intros acc; cbn [main.formatLines]; [eauto|].
  unfold main.formatLine.
  destruct (String.eqb (strings.Trim line " ") ""); [apply IH|].
  destruct (String.eqb (bytes.take 1 (strings.Trim line " ")) "#"); [apply IH|].
  destruct (regexp.FindAllString re1 _) as [|m0 [|m1 l]]; try apply IH.
  destruct (regexp.MatchString re2 _); apply IH.
Qed.

Lemma formatOutput_literal (prefix output : string) :
  bytes.all bytes.is_word prefix = true ->
  exists out, main.formatOutput prefix output = inl out.
Proof.
  intros H. unfold main.formatOutput.
  rewrite (Compile_regex1 _ H), (Compile_regex2 _ H).
  apply formatLines_compiled.
Qed.

Lemma metricsHandler_literal (env : main.Env) (r : http.Request) (wd : main.World) :
  bytes.all bytes.is_word (http.Get (http.Query r) "prefix") = true ->
  snd (main.metricsHandler env r wd) = main.Returned.
Proof.
  intros H. unfold main.metricsHandler.
  destruct (String.eqb (http.Get (http.Query r) "script") ""); [reflexivity|].
  cbv zeta.
  destruct (String.eqb (config.GetScript _ _) ""); [reflexivity|].
  rewrite runScript_arguments. cbv zeta.
  destruct (snd (main.Output env _ _)); [|reflexivity].
  destruct (String.eqb (http.Get (http.Query r) "output") "ignore"); [reflexivity|].
  match goal with
  | |- context [main.formatOutput ?p ?o] =>
      destruct (formatOutput_literal p o) as [out E]
  end.
  - destruct (String.eqb (http.Get (http.Query r) "prefix") ""); [exact H|].
    rewrite all_append, H. reflexivity.
  - now rewrite E.
Qed.

(** X13: for a prefix of word bytes (the empty prefix is one) the probe
    always returns: the two patterns compile, and the handler does not
    panic whatever the script prints. *)
Theorem literal_prefix_always_answers (env : main.Env) (r : http.Request)
    (wd : main.World) :
  bytes.all bytes.is_word (http.Get (http.Query r) "prefix") = true ->
  snd (main.probe env r wd) = main.Returned.
Proof.
  intros H.
  assert (G : forall wd', snd (main.auth env (main.metricsHandler env) r wd')
                          = main.Returned).
  { intros wd'. rewrite auth_allowed. destruct (policy.allowed env r);
      [now apply metricsHandler_literal | reflexivity]. }
  destruct (String.eqb_spec (http.Get (http.Query r) "script") "") as [E|E].
  - rewrite (probe_unnamed _ _ _ E). apply G.
  - unfold main.probe. rewrite use_auth, (instrumentScript_named _ _ _ _ E).
    cbv zeta. cbn [snd]. apply G.
Qed.

Lemma literal_prefix_answers_witness :
  snd (main.probe (sample.env sample.open_cfg "up{} 1" true)
                  (sample.request [("script", "ping"); ("prefix", "net")] "" None)
                  main.start)
  = main.Returned.
Proof.
  apply (literal_prefix_always_answers
           (sample.env sample.open_cfg "up{} 1" true)
           (sample.request [("script", "ping"); ("prefix", "net")] "" None)
           main.start).
  vm_compute. reflexivity.
Defined.

Lemma search_nowhere (rs : list regexp.regex) (s : string) :
  regexp.ends (regexp.cat_list (regexp.Bol :: rs)) 0 s = [] ->
  regexp.search (regexp.cat_list (regexp.Bol :: rs)) 0 s = None.
Proof.
  intros E. destruct s as [|c s]; cbn [regexp.search]; rewrite E; [reflexivity|].
  apply search_Bol_later.
Qed.

Lemma FindAllString_nowhere (rs : list regexp.regex) (s : string) :
  regexp.ends (regexp.cat_list (regexp.Bol :: rs)) 0 s = [] ->
  regexp.FindAllString (regexp.cat_list (regexp.Bol :: rs)) s = [].
Proof.
  intros E. unfold regexp.FindAllString. rewrite Nat.add_comm. cbn [Nat.add].
  rewrite allMatches_step.
  change (Nat.ltb (String.length s) 0) with false. cbv iota.
  cbn [bytes.skip]. now rewrite (search_nowhere _ _ E).
Qed.

(** X14: a line with no opening brace that is neither blank nor a comment
    is left out of the output, for every prefix of word bytes: the
    patterns ask for a label set, if an empty one. *)
Theorem line_without_braces_is_dropped (prefix line : string) :
  bytes.all bytes.is_word prefix = true ->
  text.remark line = false ->
  bytes.all (fun c => negb (Ascii.eqb c "{")) (strings.Trim line " ") = true ->
  main.formatLine (regexp.Compile ("^" ++ prefix ++ "\w*{.*}\s+"))
                  (regexp.Compile ("^" ++ prefix ++ "\w*{.*}\s+[0-9|\.]*"))
                  prefix line
  = main.Skip.
Proof.
  intros Hp Hr Hb. rewrite (Compile_regex1 _ Hp), (Compile_regex2 _ Hp).
  unfold text.remark in Hr. cbv zeta in Hr. apply orb_false_iff in Hr as [H1 H2].
  unfold main.formatLine. rewrite H1, H2.
  unfold exposition.regex1 at 1. rewrite FindAllString_nowhere; [reflexivity|].
  rewrite ends_Bol, ends_literal. unfold exposition.sample_head. cbn [app].
  rewrite ends_cons.
  change (regexp.ends (regexp.Star true exposition.word) (0 + String.length prefix)
            (strings.Trim line " "))
    with (regexp.iter
            (regexp.one (regexp.class_match false [regexp.IPerl false regexp.PWord]))
            true (String.length (strings.Trim line " "))
            (0 + String.length prefix) (strings.Trim line " ")).
  apply (iter_fails _ (fun c => negb (Ascii.eqb c "{"))); [|exact Hb].
  intros pos t Ht. now apply ends_Lit_none.
Qed.

Lemma line_without_braces_witness :
  main.formatLine (regexp.Compile ("^" ++ "net_" ++ "\w*{.*}\s+"))
                  (regexp.Compile ("^" ++ "net_" ++ "\w*{.*}\s+[0-9|\.]*"))
                  "net_" "up 1"
  = main.Skip.
Proof.
  apply (line_without_braces_is_dropped "net_" "up 1"); reflexivity.
Defined.

(* ===================================================================== *)
(** * Whole outputs and whole answers *)
(* ===================================================================== *)

(** X15: the loop rewrites the lines one after the other, each on its own
    and in the order of the output; a line at which it panics ends it. *)
Theorem lines_are_rewritten_in_order (regex1 regex2 : regexp.compiled)
    (prefix : string) (first rest : list string) (formatedOutput : string) :
  main.formatLines regex1 regex2 prefix (first ++ rest) formatedOutput
  = match main.formatLines regex1 regex2 prefix first formatedOutput with
    | inl out => main.formatLines regex1 regex2 prefix rest out
    | inr e => inr e
    end.
Proof.
  revert formatedOutput.
  induction first as [|line first IH]; intros acc; [reflexivity|].
  cbn [app main.formatLines].
  destruct (main.formatLine regex1 regex2 prefix line); auto.
Qed.

Lemma cut_line_at (a b : string) :
  bytes.all regexp.dot_match a = true ->
  bufio.cut_line (a ++ String bytes.LF b) = (a, Some b).
Proof.
  induction a as [|c a IH]; [reflexivity|]. rewrite append_cons.
  cbn [bytes.all bufio.cut_line]. intros H. apply andb_true_iff in H as [Hc Ha].
  unfold regexp.dot_match in Hc. apply negb_true_iff in Hc.
  now rewrite Hc, (IH Ha).
Qed.

(** X16: the scanner gives up at a line of 64 KiB or more, and the loop
    does not ask it why it stopped: when the first line of the output is
    that long, the output is rewritten into nothing, the lines after it
    included, for every prefix. *)
Theorem long_line_ends_output (prefix long rest : string) :
  bytes.all regexp.dot_match long = true ->
  (bufio.MaxScanTokenSize <= N.of_nat (String.length long))%N ->
  main.formatOutput prefix (long ++ http.nl ++ rest) = inl "".
Proof.
  intros Hlong Hlen. unfold main.formatOutput.
  assert (L : bufio.Lines (long ++ http.nl ++ rest) = []).
  { unfold bufio.Lines. change (http.nl ++ rest) with (String bytes.LF rest).
    destruct (long ++ String bytes.LF rest) as [|c s] eqn:E; [reflexivity|].
    cbn [String.length bufio.scan]. rewrite <- E, (cut_line_at _ _ Hlong).
    apply N.leb_le in Hlen. now rewrite Hlen. }
  rewrite L. reflexivity.
Qed.

Lemma long_line_witness :
  main.formatOutput "net_" (hmac.zeros (256 * 256) ++ http.nl ++ "up{} 1") = inl "".
Proof.
  apply (long_line_ends_output "net_" (hmac.zeros (256 * 256)) "up{} 1").
  - vm_compute. reflexivity.
  - vm_compute. discriminate.
Defined.

(** X17: a refusal carries the Basic challenge exactly when Basic
    authentication is active, whichever check failed. *)
Theorem refusal_carries_challenge (env : main.Env) (h : main.HandlerFunc)
    (r : http.Request) (wd : main.World) :
  policy.denied env r ->
  http.Headers (main.writer (fst (main.auth env h r wd))) !! "WWW-Authenticate"
  = if config.BasicAuth_Active (main.exporterConfig env)
    then Some ("Basic realm=" ++ jwt.q ++ "Restricted" ++ jwt.q)
    else http.Headers (main.writer wd) !! "WWW-Authenticate".
Proof.
  intros D. rewrite auth_allowed, (denied_not_allowed _ _ D).
  unfold policy.challenge, main.deny, http.Error.
  destruct (config.BasicAuth_Active _); cbn;
    rewrite !lookup_insert_ne by discriminate; [apply lookup_insert_eq | reflexivity].
Qed.

Lemma refusal_challenge_witness :
  let env := sample.env (sample.cfg true true "secret") "up{} 1" true in
  let r := sample.request [("script", "ping")] ""
             (Some ("prometheus", "s3cret")) in
  http.Headers (main.writer (fst (main.auth env (main.metricsHandler env) r
                                            main.start)))
    !! "WWW-Authenticate"
  = if config.BasicAuth_Active (main.exporterConfig env)
    then Some ("Basic realm=" ++ jwt.q ++ "Restricted" ++ jwt.q)
    else http.Headers (main.writer main.start) !! "WWW-Authenticate".
Proof.
  apply (refusal_carries_challenge
           (sample.env (sample.cfg true true "secret") "up{} 1" true)).
  apply policy.missing_header; reflexivity.
Defined.

(** X18: the whole answer for a script that prints one sample line, with a
    prefix of word bytes in the request: status 200, the six synthetic
    lines with [script_success{} 1], then the line with the prefix and an
    underscore before it and the commas of its value as points, and the
    empty line that ends the body. *)
Theorem sample_line_is_served (env : main.Env) (r : http.Request) (wd : main.World)
    (p name labels sp value : string) :
  http.Get (http.Query r) "script" <> "" ->
  config.GetScript (main.exporterConfig env) (http.Get (http.Query r) "script") <> "" ->
  http.Get (http.Query r) "output" <> "ignore" ->
  http.Get (http.Query r) "prefix" = p -> p <> "" ->
  bytes.all bytes.is_word p = true ->
  main.Output env (hd "" (main.arguments env r)) (tl (main.arguments env r))
  = (name ++ "{" ++ labels ++ "}" ++ sp ++ value, true) ->
  bytes.all bytes.is_word name = true ->
  bytes.all regexp.dot_match labels = true ->
  sp <> "" -> bytes.all exposition.blank sp = true ->
  value <> "" -> bytes.all exposition.value_char value = true ->
  (N.of_nat (String.length (name ++ "{" ++ labels ++ "}" ++ sp ++ value))
   < bufio.MaxScanTokenSize)%N ->
  http.Status (main.writer wd) = None ->
  snd (main.metricsHandler env r wd) = main.Returned
  /\ http.status (main.writer (fst (main.metricsHandler env r wd))) = http.StatusOK
  /\ http.Body (main.writer (fst (main.metricsHandler env r wd)))
     = http.Body (main.writer wd)
       ++ main.synthetic "1" (main.scriptSeconds env)
       ++ (p ++ "_" ++ name ++ "{" ++ labels ++ "}" ++ sp
           ++ strings.Replace value "," "." ++ http.nl)
       ++ http.nl.
Proof.
  intros Hname Hscript Hout Hprefix Hp Hword Hrun Hn Hl Hs Hsp Hv Hvalue Hlen Hfresh.
  unfold main.metricsHandler.
  apply String.eqb_neq in Hname, Hscript, Hout, Hp.
  rewrite Hname, Hscript, Hprefix, Hp, Hout.
  rewrite runScript_arguments, Hrun. cbv zeta. cbn [fst snd].
  rewrite (formatOutput_sample (p ++ "_") name labels sp value); auto.
  - unfold http.status. cbn. rewrite Hfresh. rewrite !append_assoc. auto.
  - now rewrite all_append, Hword.
Qed.

Lemma sample_line_witness :
  let env := sample.env sample.open_cfg "up{} 1,5" true in
  let r := sample.request [("script", "ping"); ("prefix", "net")] "" None in
  snd (main.metricsHandler env r main.start) = main.Returned
  /\ http.status (main.writer (fst (main.metricsHandler env r main.start)))
     = http.StatusOK
  /\ http.Body (main.writer (fst (main.metricsHandler env r main.start)))
     = http.Body (main.writer main.start)
       ++ main.synthetic "1" (main.scriptSeconds env)
       ++ ("net" ++ "_" ++ "up" ++ "{" ++ "" ++ "}" ++ " "
           ++ strings.Replace "1,5" "," "." ++ http.nl)
       ++ http.nl.
Proof.
  apply (sample_line_is_served
           (sample.env sample.open_cfg "up{} 1,5" true)
           (sample.request [("script", "ping"); ("prefix", "net")] "" None)
           main.start "net" "up" "" " " "1,5");
    solve [reflexivity | discriminate | vm_compute; discriminate
           | vm_compute; reflexivity].
Defined.

